(** * QICK readout drivers: frequency allocation and triggered capture

    A shallow embedding of [qick_lib/qick/drivers/readout.py]: the
    polyphase-filter-bank readouts ([AxisPFBReadoutV2], [AxisPFBReadoutV3],
    [AxisPFBReadoutV4]), the averaging / decimated buffer ([AxisAvgBuffer])
    and the DDR4 ring buffer ([AxisBufferDdrV1]).

    Conventions of the embedding.
    - Python integers are [Z].  The floats [set_freq] computes with are
      binary64 floats, with the rounding of every operation; the rates
      [configure] derives, and the reading of the channel-selection formulas
      in exact arithmetic, are rationals [Q].
    - A driver object is a record of its Python attributes; the registers of
      the block are a finite map from register name to value, together with
      the ordered list of register writes the driver issued.
    - A method is a function from the object state to an outcome and the
      state the method leaves behind; a raised exception keeps every write
      made before the [raise]. *)

From Stdlib Require Import ZArith QArith Qround Qabs Lqa.
From Stdlib Require SpecFloat.
From stdpp Require Import gmap strings list pretty.

Local Open Scope Z_scope.

(** ** Outcomes of a method call *)

(** The distinct [raise RuntimeError(...)] sites of the drivers. *)
Inductive runtime_error : Type :=
| FrequencyCollision (out_ch old_out in_ch : Z) (* AxisPFBReadoutV2.set_freq_int *)
| InvalidOutputChannel (out_ch : Z)           (* AxisPFBReadoutV3/V4.set_freq_int *)
| LengthTooLong (length maxlen : Z)           (* transfer_avg, config_buf, transfer_buf *)
| DmaShortTransfer (requested got : Z)        (* transfer_avg, transfer_buf *)
| DdrOverwrite.                               (* AxisBufferDdrV1.arm *)

Inductive exn : Type :=
| RuntimeError (why : runtime_error)
| AttributeError (attr : string)
| KeyError (key : Z)
| ZeroDivisionError
| FloatNaNToInt            (* ValueError of [int(nan)] *)
| FloatInfToInt            (* OverflowError of [int(inf)] *)
| SIGBUS.                  (* not an exception: the interpreter dies on a misaligned access *)

Inductive result (A : Type) : Type :=
| Return (a : A)
| Raise (e : exn).
Arguments Return {A} a.
Arguments Raise {A} e.

Definition is_range_error {A} (r : result A) : Prop :=
  match r with
  | Raise (RuntimeError (LengthTooLong _ _)) => True
  | Raise (RuntimeError (InvalidOutputChannel _)) => True
  | _ => False
  end.

Definition is_collision_error {A} (r : result A) : Prop :=
  match r with
  | Raise (RuntimeError (FrequencyCollision _ _ _)) => True
  | _ => False
  end.

Definition is_transfer_error {A} (r : result A) : Prop :=
  match r with
  | Raise (RuntimeError (DmaShortTransfer _ _)) => True
  | _ => False
  end.

Definition is_capacity_error {A} (r : result A) : Prop :=
  match r with
  | Raise (RuntimeError DdrOverwrite) => True
  | _ => False
  end.

Definition returns {A} (r : result A) : Prop :=
  match r with
  | Return _ => True
  | Raise _ => False
  end.

(** ** State-and-exception monad *)

Definition M (S A : Type) : Type := S -> result A * S.

Definition ret {S A} (a : A) : M S A := fun s => (Return a, s).

Definition raise {S A} (e : exn) : M S A := fun s => (Raise e, s).

Definition bind {S A B} (c : M S A) (k : A -> M S B) : M S B :=
  fun s =>
    match c s with
    | (Return a, s') => k a s'
    | (Raise e, s') => (Raise e, s')
    end.

Definition get {S} : M S S := fun s => (Return s, s).

Definition lift {S A} (r : result A) : M S A := fun s => (r, s).

Definition modify {S} (f : S -> S) : M S unit := fun s => (Return tt, f s).

Notation "'let!' x ':=' c 'in' k" := (bind c (fun x => k))
  (at level 10, x name, c at level 100, k at level 200).
Notation "c ';;' k" := (bind c (fun _ => k))
  (at level 100, k at level 200, right associativity).

(** ** Outcomes of the remaining methods

    The methods below can also fail on a dictionary lookup by name, on an
    [assert], on a numpy conversion or on a reshape. *)
Inductive exn_ext : Type :=
| Exn (e : exn)
| KeyErrorStr (key : string)
| AssertionError
| OverflowError
| ValueError
| OutputModeConflict (sel old : string).   (* RuntimeError of AxisPFBReadoutV2.set_out *)

Inductive outcome (A : Type) : Type :=
| Ok (a : A)
| Fail (e : exn_ext).
Arguments Ok {A} a.
Arguments Fail {A} e.

(** ** Memory-mapped registers *)

(** Modelled from the spec: the [SocIp] base class is not part of this
    file's source; the device fabric exposes "get/set of named
    integer-valued registers".  A write stores the value under the
    register's name and is appended to the ordered trace of writes. *)
Record mmio : Type := MkMmio {
  regs : gmap string Z;
  writes : list (string * Z)
}.

Definition mmio_init : mmio := MkMmio ∅ [].

Definition mmio_set (name : string) (v : Z) (io : mmio) : mmio :=
  MkMmio (<[name := v]> (regs io)) (writes io ++ [(name, v)]).

(** ** Python and numpy primitives *)

(** [l[lo:hi]] with Python's treatment of negative and overlong bounds. *)
Definition py_index (n i : Z) : Z :=
  if i <? 0 then Z.max (i + n) 0 else Z.min i n.

Definition py_slice {A} (l : list A) (lo hi : option Z) : list A :=
  let n := Z.of_nat (length l) in
  let lo' := match lo with Some i => py_index n i | None => 0 end in
  let hi' := match hi with Some i => py_index n i | None => n end in
  drop (Z.to_nat lo') (take (Z.to_nat hi') l).

(** Two's-complement reading of the low [bits] bits. *)
Definition sint (bits z : Z) : Z :=
  let m := z `mod` 2 ^ bits in
  if m <? 2 ^ (bits - 1) then m else m - 2 ^ bits.

(** [np.frombuffer(..., dtype=intN).reshape((-1,2))] on words of [2N] bits:
    the low half is I, the high half is Q. *)
Definition iq_of_word (bits w : Z) : Z * Z :=
  (sint bits w, sint bits (Z.shiftr w bits)).

Definition iq_view (bits : Z) (ws : list Z) : list (Z * Z) :=
  map (iq_of_word bits) ws.

(** [np.round]: round to nearest, ties to the even integer. *)
Definition np_round (x : Q) : Z :=
  let fl := Qfloor x in
  let frac := (x - inject_Z fl)%Q in
  match (frac ?= 1 # 2)%Q with
  | Lt => fl
  | Gt => fl + 1
  | Eq => if Z.even fl then fl else fl + 1
  end.

(** [np.int64(v)] of a Python integer: the value, or [OverflowError]. *)
Definition np_int64 (v : Z) : option Z :=
  if (- 2 ^ 63 <=? v) && (v <? 2 ^ 63) then Some v else None.

(** [a.reshape((-1,2))] on a flat array: rows of two consecutive items;
    [ValueError] (here [None]) when the size is odd. *)
Fixpoint reshape2 {A} (l : list A) : option (list (A * A)) :=
  match l with
  | [] => Some []
  | [_] => None
  | x :: y :: l' => option_map (cons (x, y)) (reshape2 l')
  end.

(** ** Binary64 floats

    The frequencies the filter-bank readouts compute with are Python floats.
    They are modelled bit for bit by the IEEE 754 specification of the
    standard library at precision 53 and maximal exponent 1024: every
    operation rounds to the nearest float, ties to even. *)

Module F64.

Definition prec : Z := 53.
Definition emax : Z := 1024.

Definition of_Z (n : Z) : SpecFloat.spec_float :=
  SpecFloat.binary_normalize prec emax n 0 false.

Definition add := SpecFloat.SFadd prec emax.
Definition sub := SpecFloat.SFsub prec emax.
Definition mul := SpecFloat.SFmul prec emax.
Definition div := SpecFloat.SFdiv prec emax.

(** The float a decimal literal [n/d] denotes, for integers that are floats
    themselves: the float nearest to the quotient. *)
Definition lit (n d : Z) : SpecFloat.spec_float := div (of_Z n) (of_Z d).

Definition zero : SpecFloat.spec_float := SpecFloat.S754_zero false.

Definition is_zero (x : SpecFloat.spec_float) : bool :=
  match x with
  | SpecFloat.S754_zero _ => true
  | _ => false
  end.

Definition is_finite (x : SpecFloat.spec_float) : bool :=
  match x with
  | SpecFloat.S754_zero _ | SpecFloat.S754_finite _ _ _ => true
  | _ => false
  end.

(** The sign bit (of a NaN: clear). *)
Definition is_negative (x : SpecFloat.spec_float) : bool :=
  match x with
  | SpecFloat.S754_zero s | SpecFloat.S754_finite s _ _ | SpecFloat.S754_infinity s => s
  | SpecFloat.S754_nan => false
  end.

(** The exact value of a finite float (0 for the others). *)
Definition to_Q (x : SpecFloat.spec_float) : Q :=
  match x with
  | SpecFloat.S754_finite s m e => (inject_Z (SpecFloat.cond_Zopp s (Zpos m)) * 2 ^ e)%Q
  | _ => 0%Q
  end.

(** C's truth value of a float: everything but a zero. *)
Definition truthy (x : SpecFloat.spec_float) : bool := negb (SpecFloat.SFeqb x zero).

(** C's [x < 0.0]. *)
Definition ltb0 (x : SpecFloat.spec_float) : bool := SpecFloat.SFltb x zero.

(** C's [fmod]: the remainder of the truncated quotient, with the sign of
    [x].  It is a float, so nothing is rounded. *)
Definition fmod (x y : SpecFloat.spec_float) : SpecFloat.spec_float :=
  match x, y with
  | SpecFloat.S754_nan, _ | _, SpecFloat.S754_nan
  | SpecFloat.S754_infinity _, _ | _, SpecFloat.S754_zero _ => SpecFloat.S754_nan
  | _, SpecFloat.S754_infinity _ | SpecFloat.S754_zero _, _ => x
  | SpecFloat.S754_finite sx mx ex, SpecFloat.S754_finite _ my ey =>
      let e := Z.min ex ey in
      let r := Z.rem (Zpos mx * 2 ^ (ex - e)) (Zpos my * 2 ^ (ey - e)) in
      if r =? 0 then SpecFloat.S754_zero sx
      else SpecFloat.binary_normalize prec emax (SpecFloat.cond_Zopp sx r) e false
  end.

(** C's [floor]. *)
Definition floor (x : SpecFloat.spec_float) : SpecFloat.spec_float :=
  match x with
  | SpecFloat.S754_finite _ _ _ => of_Z (Qfloor (to_Q x))
  | _ => x
  end.

(** Python's [vx // wx] for a divisor that is not zero, as CPython's
    [float_floor_div] computes it: the quotient of [vx - fmod(vx, wx)] by
    [wx], lowered by one when the remainder has the other sign than [wx],
    and snapped to the nearest integral float. *)
Definition floordiv (vx wx : SpecFloat.spec_float) : SpecFloat.spec_float :=
  let mod_ := fmod vx wx in
  let div0 := div (sub vx mod_) wx in
  let div1 := if truthy mod_ && negb (Bool.eqb (ltb0 wx) (ltb0 mod_))
              then sub div0 (of_Z 1) else div0 in
  if truthy div1 then
    let floordiv := floor div1 in
    if SpecFloat.SFltb (lit 1 2) (sub div1 floordiv) then add floordiv (of_Z 1)
    else floordiv
  else SpecFloat.S754_zero (is_negative (div vx wx)).

(** Python's [vx % wx] for a divisor that is not zero, as CPython's
    [float_rem] computes it: [fmod], moved by [wx] when its sign is not
    that of [wx]. *)
Definition rem (vx wx : SpecFloat.spec_float) : SpecFloat.spec_float :=
  let mod_ := fmod vx wx in
  if truthy mod_ then
    if negb (Bool.eqb (ltb0 wx) (ltb0 mod_)) then add mod_ wx else mod_
  else SpecFloat.S754_zero (is_negative wx).

End F64.

(** Equal, or two zeros. *)
Definition same_float (x y : SpecFloat.spec_float) : Prop :=
  x = y ∨ (F64.is_zero x = true ∧ F64.is_zero y = true).

(** [int(x)] for a float [x]: truncation towards zero; a NaN and an
    infinity are refused. *)
Definition py_int (x : SpecFloat.spec_float) : result Z :=
  match x with
  | SpecFloat.S754_nan => Raise FloatNaNToInt
  | SpecFloat.S754_infinity _ => Raise FloatInfToInt
  | _ => let q := F64.to_Q x in Return (if Qle_bool 0 q then Qfloor q else Qceiling q)
  end.

(** [int(np.round(x))] for a float [x]: [np.round] is exact on the value of
    the float; [int] refuses a NaN and an infinity. *)
Definition int_np_round (x : SpecFloat.spec_float) : result Z :=
  match x with
  | SpecFloat.S754_nan => Raise FloatNaNToInt
  | SpecFloat.S754_infinity _ => Raise FloatInfToInt
  | _ => Return (np_round (F64.to_Q x))
  end.

(** ** Channel selection shared by the three filter-bank readouts

    The bodies of [set_freq] of [AxisPFBReadoutV2], [V3] and [V4] compute
    the same locals; they are named after the local variables.  Each
    expression is given twice: read in exact arithmetic on rationals, and as
    the float computation that [set_freq] runs. *)

(** *** The locals of [set_freq] in exact arithmetic *)

(** [nqz = int(ro_freq // (self['fs']/2)) + 1] *)
Definition nqz (fs ro_freq : Q) : Z := Qfloor (ro_freq / (fs / 2)) + 1.

(** [if nqz % 2 == 0: ro_freq *= -1] *)
Definition fold_nqz (fs ro_freq : Q) : Q :=
  if nqz fs ro_freq `mod` 2 =? 0 then (ro_freq * -1)%Q else ro_freq.

(** [f_steps = int(np.round(ro_freq/(self['f_dds']/2)))]: the quotient is
    not rounded to a float before [np.round]. *)
Definition f_steps (f_dds ro_freq : Q) : Z := np_round (ro_freq / (f_dds / 2)).

(** [f_dds = ro_freq - f_steps*(self['f_dds']/2)] *)
Definition f_dds_residual (f_dds ro_freq : Q) : Q :=
  (ro_freq - inject_Z (f_steps f_dds ro_freq) * (f_dds / 2))%Q.

(** [(self.CH_OFFSET + f_steps) % N] *)
Definition pfb_channel (CH_OFFSET N steps : Z) : Z := (CH_OFFSET + steps) `mod` N.

(** *** The locals of [set_freq] on binary64 floats *)

(** The [soc] object the readouts call back into; not part of this file's
    source, so it is a parameter of the model. *)
Record soc_iface : Type := MkSoc {
  roundfreq : SpecFloat.spec_float -> Z -> SpecFloat.spec_float;
  HAS_MIXER : Z -> bool;
  get_mixer_freq : Z -> SpecFloat.spec_float;
  freq2int : SpecFloat.spec_float -> Z
}.

(** [ro_freq] at the point where the Nyquist zone is computed. *)
Definition ro_freq_of (soc : soc_iface) (f : SpecFloat.spec_float) (gen_ch : option Z)
  : SpecFloat.spec_float :=
  match gen_ch with
  | None => f
  | Some g =>
      let r := roundfreq soc f g in
      if HAS_MIXER soc g then F64.add r (get_mixer_freq soc g) else r
  end.

(** The callbacks of a board with no generator rounding and no mixer; the
    tuning word is read here as the integer part of the frequency. *)
Definition soc_plain : soc_iface :=
  MkSoc (fun f _ => f) (fun _ => false) (fun _ => F64.zero)
          (fun x => Qfloor (F64.to_Q x)).

(** [nqz = int(ro_freq // (self['fs']/2)) + 1] on floats.  The floor
    division raises on a zero divisor; [int] refuses the NaN it yields for a
    NaN or an infinite operand. *)
Definition nqz_f64 (fs ro_freq : SpecFloat.spec_float) : result Z :=
  let half_fs := F64.div fs (F64.of_Z 2) in
  if F64.is_zero half_fs then Raise ZeroDivisionError else
  match py_int (F64.floordiv ro_freq half_fs) with
  | Raise e => Raise e
  | Return z => Return (z + 1)
  end.

(** Lines 284-286 of [set_freq] (and their copies in V3, V4): [ro_freq]
    after the Nyquist fold, or the error raised on the way. *)
Definition fold_f64 (fs ro_freq : SpecFloat.spec_float) : result SpecFloat.spec_float :=
  match nqz_f64 fs ro_freq with
  | Raise e => Raise e
  | Return nqz => Return (if nqz `mod` 2 =? 0 then F64.mul ro_freq (F64.of_Z (-1)) else ro_freq)
  end.

(** Lines 291-292: the pair of [f_steps] and the residual [f_dds]. *)
Definition steps_f64 (f_dds ro_freq : SpecFloat.spec_float)
  : result (Z * SpecFloat.spec_float) :=
  let half_dds := F64.div f_dds (F64.of_Z 2) in
  if F64.is_zero half_dds then Raise ZeroDivisionError else
  match int_np_round (F64.div ro_freq half_dds) with
  | Raise e => Raise e
  | Return steps => Return (steps, F64.sub ro_freq (F64.mul (F64.of_Z steps) half_dds))
  end.

(** ** AbsReadout *)

Module AbsReadout.

(** The entry of [rf.adccfg] for the ADC that drives the readout. *)
Record adccfg : Type := MkAdc {
  adc_fs : Q;
  adc_fs_mult : Z;
  adc_fs_div : Z;
  adc_decimation : Z;
  adc_f_fabric : Q
}.

(** The numeric entries of [self.cfg] that [configure] writes. *)
Record cfg : Type := MkCfg {
  b_dds : Z;
  fs : Q;
  fs_mult : Z;
  fs_div : Z;
  decimation : Z;
  f_fabric : Q;
  f_dds : Q;
  fdds_div : Z;
  f_output : Q
}.

(** [configure], for a class with the given [B_DDS] and [DOWNSAMPLING]. *)
Definition configure (B_DDS DOWNSAMPLING : Z) (a : adccfg) : result cfg :=
  if adc_decimation a =? 0 then Raise ZeroDivisionError else
  if adc_decimation a * DOWNSAMPLING =? 0 then Raise ZeroDivisionError else
  Return (MkCfg B_DDS (adc_fs a) (adc_fs_mult a) (adc_fs_div a) (adc_decimation a)
            (adc_f_fabric a)
            (adc_fs a / inject_Z (adc_decimation a))
            (adc_fs_div a * adc_decimation a)
            (adc_fs a / inject_Z (adc_decimation a * DOWNSAMPLING))).

Definition set_f_dds (c : cfg) (v : Q) (d : Z) : cfg :=
  MkCfg (b_dds c) (fs c) (fs_mult c) (fs_div c) (decimation c) (f_fabric c) v d (f_output c).

End AbsReadout.

(** ** AxisReadoutV2 *)

Module AxisReadoutV2.

Definition B_DDS : Z := 32.
Definition DOWNSAMPLING : Z := 8.

(** [update]: pulse the write-enable register. *)
Definition update (io : mmio) : mmio := mmio_set "we_reg" 0 (mmio_set "we_reg" 1 io).

(** The registers after [__init__]. *)
Definition init : mmio :=
  update (mmio_set "mode_reg" 1
            (mmio_set "outsel_reg" 0
               (mmio_set "nsamp_reg" 10
                  (mmio_set "phase_reg" 0
                     (mmio_set "freq_reg" 0 mmio_init))))).

Definition configure : AbsReadout.adccfg -> result AbsReadout.cfg :=
  AbsReadout.configure B_DDS DOWNSAMPLING.

(** [{"product": 0, "dds": 1, "input": 2}] *)
Definition outsel_codes : gmap string Z :=
  <["product" := 0]> (<["dds" := 1]> (<["input" := 2]> ∅)).

Definition set_out (sel : string) (io : mmio) : outcome unit * mmio :=
  match outsel_codes !! sel with
  | Some code => (Ok tt, update (mmio_set "outsel_reg" code io))
  | None => (Fail (KeyErrorStr sel), io)
  end.

Definition set_freq_int (f_int : Z) (io : mmio) : outcome unit * mmio :=
  match np_int64 f_int with
  | Some v => (Ok tt, update (mmio_set "freq_reg" v io))
  | None => (Fail OverflowError, io)
  end.

Definition set_freq (soc : soc_iface) (f_dds : SpecFloat.spec_float)
    (f : SpecFloat.spec_float) (gen_ch : option Z) (io : mmio)
  : outcome unit * mmio :=
  let ro_freq := ro_freq_of soc f gen_ch in
  if F64.is_zero f_dds then (Fail (Exn ZeroDivisionError), io) else
  let ro_freq := F64.rem ro_freq f_dds in
  let f_int := freq2int soc ro_freq in
  set_freq_int f_int io.

(** The calls a user can make on the block, and a run of them from a
    given register state; a failed call leaves what it left. *)
Inductive call : Type :=
| SetOut (sel : string)
| SetFreqInt (f_int : Z)
| SetFreq (f : SpecFloat.spec_float) (gen_ch : option Z).

Definition run_call (soc : soc_iface) (f_dds : SpecFloat.spec_float) (c : call) (io : mmio)
  : mmio :=
  match c with
  | SetOut sel => (set_out sel io).2
  | SetFreqInt f_int => (set_freq_int f_int io).2
  | SetFreq f gen_ch => (set_freq soc f_dds f gen_ch io).2
  end.

Definition run_calls (soc : soc_iface) (f_dds : SpecFloat.spec_float) (cs : list call)
    (io : mmio) : mmio :=
  foldl (fun io c => run_call soc f_dds c io) io cs.

(** The block at rest: write-enable low, and the registers no method
    writes at their construction values. *)
Definition idle (io : mmio) : Prop :=
  regs io !! "we_reg" = Some 0 ∧
  regs io !! "mode_reg" = Some 1 ∧
  regs io !! "nsamp_reg" = Some 10 ∧
  regs io !! "phase_reg" = Some 0.

End AxisReadoutV2.

(** ** AxisPFBReadoutV2 *)

Module AxisPFBReadoutV2.

Definition CH_OFFSET : Z := 4.

Record state : Type := MkState {
  ch_freqs : gmap Z Z;
  out_chs : gmap Z Z;
  io : mmio
}.

(** [initialize] on a freshly constructed block. *)
Definition initialize : state := MkState ∅ ∅ mmio_init.

Definition setattr (name : string) (v : Z) : M state unit :=
  modify (fun st => MkState (ch_freqs st) (out_chs st) (mmio_set name v (io st))).

Definition set_freq_int (f_int in_ch out_ch : Z) : M state unit :=
  let! st := get in
  let commit : M state unit :=
    modify (fun st => MkState (<[in_ch := f_int]> (ch_freqs st)) (out_chs st) (io st));;
    modify (fun st => MkState (ch_freqs st) (<[in_ch := out_ch]> (out_chs st)) (io st));;
    setattr ("ch" +:+ pretty out_ch +:+ "sel_reg") in_ch;;
    setattr ("freq" +:+ pretty in_ch +:+ "_reg") f_int in
  match ch_freqs st !! in_ch with
  | Some old =>
      if negb (f_int =? old) then
        (* the message reads [self.out_chs[in_ch]] *)
        match out_chs st !! in_ch with
        | Some old_out => raise (RuntimeError (FrequencyCollision out_ch old_out in_ch))
        | None => raise (KeyError in_ch)
        end
      else commit
  | None => commit
  end.

Section WithConfig.
Variable soc : soc_iface.
(** [self['fs']] and [self['f_dds']] *)
Variables fs f_dds : SpecFloat.spec_float.

Definition set_freq (f : SpecFloat.spec_float) (out_ch : Z) (gen_ch : option Z)
  : M state unit :=
  let ro_freq := ro_freq_of soc f gen_ch in
  let! ro_freq := lift (fold_f64 fs ro_freq) in
  let! steps_and_f_dds := lift (steps_f64 f_dds ro_freq) in
  let '(f_steps, f_dds) := steps_and_f_dds in
  let in_ch := pfb_channel CH_OFFSET 8 f_steps in
  let freq_int := freq2int soc f_dds in
  set_freq_int freq_int in_ch out_ch.
End WithConfig.

(** The object a call of [set_freq_int] that does not raise leaves behind. *)
Definition committed (f_int in_ch out_ch : Z) (st : state) : state :=
  MkState (<[in_ch := f_int]> (ch_freqs st)) (<[in_ch := out_ch]> (out_chs st))
    (mmio_set ("freq" +:+ pretty in_ch +:+ "_reg") f_int
       (mmio_set ("ch" +:+ pretty out_ch +:+ "sel_reg") in_ch (io st))).

(** Both dictionaries are written together, so a channel with a committed
    word also has a recorded output. *)
Definition wf (st : state) : Prop :=
  forall c, is_Some (ch_freqs st !! c) -> is_Some (out_chs st !! c).

(** A caller issuing one [set_freq_int] after another and carrying on after
    a raised error: the object keeps what each call left. *)
Definition set_freq_ints (reqs : list (Z * Z * Z)) (st : state) : state :=
  foldl (fun st '(f_int, in_ch, out_ch) => (set_freq_int f_int in_ch out_ch st).2) st reqs.

Definition DOWNSAMPLING : Z := 4.

Definition configure (a : AbsReadout.adccfg) : result AbsReadout.cfg :=
  match AbsReadout.configure 32 DOWNSAMPLING a with
  | Return c =>
      Return (AbsReadout.set_f_dds c (AbsReadout.f_dds c / 4) (AbsReadout.fdds_div c * 4))
  | Raise e => Raise e
  end.

(** [{"product": 0, "input": 1, "dds": 2}] *)
Definition outsel_codes : gmap string Z :=
  <["product" := 0]> (<["input" := 1]> (<["dds" := 2]> ∅)).

(** [set_out] on the pair of [self.sel] and the rest of the object. *)
Definition set_out (sel : string) (obj : option string * state)
  : outcome unit * (option string * state) :=
  let '(cur, st) := obj in
  let go : outcome unit * (option string * state) :=
    match outsel_codes !! sel with
    | Some code =>
        (Ok tt, (Some sel,
                 MkState (ch_freqs st) (out_chs st) (mmio_set "outsel_reg" code (io st))))
    | None => (Fail (KeyErrorStr sel), (Some sel, st))
    end in
  match cur with
  | Some old => if String.eqb sel old then go else (Fail (OutputModeConflict sel old), obj)
  | None => go
  end.

End AxisPFBReadoutV2.

(** ** AxisPFBReadoutV3 and AxisPFBReadoutV4

    The two classes have the same body and differ in [NOUT] (4 and 8
    outputs); [N] is the generic read from the block description. *)

Module PFBWide.

Definition L_PFB : Z := 8.

Record state : Type := MkState {
  ch_freqs : gmap Z Z;
  out_chs : gmap Z Z;
  io : mmio
}.

Definition initialize : state := MkState ∅ ∅ mmio_init.

Definition setattr (name : string) (v : Z) : M state unit :=
  modify (fun st => MkState (ch_freqs st) (out_chs st) (mmio_set name v (io st))).

(** [packet = int(pfb_ch/self.L_PFB)]: true division, then truncation. *)
Definition packet_of (pfb_ch : Z) : Z := Z.quot pfb_ch L_PFB.

(** [index = int(pfb_ch % self.L_PFB)] *)
Definition index_of (pfb_ch : Z) : Z := pfb_ch `mod` L_PFB.

(** [id_val = (index <<8) + packet] *)
Definition id_val (pfb_ch : Z) : Z := Z.shiftl (index_of pfb_ch) 8 + packet_of pfb_ch.

Section WithGenerics.
Variables N NOUT : Z.

Definition set_freq_int (f_int pfb_ch out_ch : Z) : M state unit :=
  if (0 <=? pfb_ch) && (pfb_ch <? N) then
    if (0 <=? out_ch) && (out_ch <? NOUT) then
      setattr ("id" +:+ pretty out_ch +:+ "_reg") (id_val pfb_ch);;
      setattr ("freq" +:+ pretty out_ch +:+ "_reg") f_int;;
      setattr ("phase" +:+ pretty out_ch +:+ "_reg") 0
    else raise (RuntimeError (InvalidOutputChannel out_ch))
  else
    (* the message is built from [self.pfb_ch], which is never assigned *)
    raise (AttributeError "pfb_ch").

Variable soc : soc_iface.
Variables fs f_dds : SpecFloat.spec_float.

(** [self.CH_OFFSET = self.N//2] *)
Definition CH_OFFSET : Z := N `div` 2.

Definition set_freq (f : SpecFloat.spec_float) (out_ch : Z) (gen_ch : option Z)
  : M state unit :=
  let ro_freq := ro_freq_of soc f gen_ch in
  let! ro_freq := lift (fold_f64 fs ro_freq) in
  let! steps_and_f_dds := lift (steps_f64 f_dds ro_freq) in
  let '(f_steps, f_dds) := steps_and_f_dds in
  if N =? 0 then raise ZeroDivisionError else
  let pfb_ch := pfb_channel CH_OFFSET N f_steps in
  let freq_int := freq2int soc f_dds in
  set_freq_int freq_int pfb_ch out_ch.

(** [self.DOWNSAMPLING = self.N//2] *)
Definition DOWNSAMPLING : Z := N `div` 2.

Definition configure (a : AbsReadout.adccfg) : result AbsReadout.cfg :=
  match AbsReadout.configure 32 DOWNSAMPLING a with
  | Return c =>
      if N =? 0 then Raise ZeroDivisionError else
      Return (AbsReadout.set_f_dds c (AbsReadout.f_dds c / (inject_Z N / 2))
                (AbsReadout.fdds_div c * (N `div` 2)))
  | Raise e => Raise e
  end.
End WithGenerics.

End PFBWide.

Module AxisPFBReadoutV3.
Definition NOUT : Z := 4.
Definition set_freq_int (N : Z) := PFBWide.set_freq_int N NOUT.
Definition set_freq (N : Z) := PFBWide.set_freq N NOUT.
End AxisPFBReadoutV3.

Module AxisPFBReadoutV4.
Definition NOUT : Z := 8.
Definition set_freq_int (N : Z) := PFBWide.set_freq_int N NOUT.
Definition set_freq (N : Z) := PFBWide.set_freq N NOUT.
End AxisPFBReadoutV4.

(** ** DMA receive channel

    [recvchannel.transfer(buff, nbytes)] followed by [recvchannel.wait()]:
    the engine rewrites the buffer and reports the byte count it moved in
    [recvchannel.transferred].  The engine is outside this file; a model of
    it maps the buffer and the requested byte count to the buffer after the
    transfer and the reported count. *)
Definition dma_engine : Type := list Z -> Z -> list Z * Z.

(** ** AxisAvgBuffer *)

Module AxisAvgBuffer.

Record state : Type := MkState {
  io : mmio;
  avg_buff : list Z;          (* allocate(shape=avg_maxlen, dtype=int64) *)
  buf_buff : list Z;          (* allocate(shape=buf_maxlen, dtype=int32) *)
  switch_avg : option Z;      (* slave selected on switch_avg *)
  switch_buf : option Z       (* slave selected on switch_buf *)
}.

Definition setattr (name : string) (v : Z) : M state unit :=
  modify (fun st => MkState (mmio_set name v (io st)) (avg_buff st) (buf_buff st)
                            (switch_avg st) (switch_buf st)).

Definition set_avg_buff (b : list Z) : M state unit :=
  modify (fun st => MkState (io st) b (buf_buff st) (switch_avg st) (switch_buf st)).

Definition set_buf_buff (b : list Z) : M state unit :=
  modify (fun st => MkState (io st) (avg_buff st) b (switch_avg st) (switch_buf st)).

Definition switch_avg_sel (slv : Z) : M state unit :=
  modify (fun st => MkState (io st) (avg_buff st) (buf_buff st) (Some slv) (switch_buf st)).

Definition switch_buf_sel (slv : Z) : M state unit :=
  modify (fun st => MkState (io st) (avg_buff st) (buf_buff st) (switch_avg st) (Some slv)).

Definition enable_avg : M state unit := setattr "avg_start_reg" 1.
Definition disable_avg : M state unit := setattr "avg_start_reg" 0.
Definition enable_buf : M state unit := setattr "buf_start_reg" 1.
Definition disable_buf : M state unit := setattr "buf_start_reg" 0.

Definition enable : M state unit :=
  enable_avg;;
  enable_buf.

Section WithGenerics.
(** [N_AVG], [N_BUF] from the block description; [switch_ch] from the
    connectivity; the two DMA engines. *)
Variables N_AVG N_BUF switch_ch : Z.
Variables dma_avg dma_buf : dma_engine.

Definition avg_maxlen : Z := 2 ^ N_AVG.
Definition buf_maxlen : Z := 2 ^ N_BUF.

(** The object right after [__init__]; the freshly allocated buffers are
    taken to hold zeros. *)
Definition init : state :=
  let io0 := mmio_set "buf_dr_start_reg" 0
               (mmio_set "buf_start_reg" 0
                  (mmio_set "avg_dr_start_reg" 0
                     (mmio_set "avg_start_reg" 0 mmio_init))) in
  MkState io0 (replicate (Z.to_nat avg_maxlen) 0) (replicate (Z.to_nat buf_maxlen) 0)
          None None.

Definition config_avg (address length : Z) : M state unit :=
  disable_avg;;
  setattr "avg_addr_reg" address;;
  setattr "avg_len_reg" length.

Definition config_buf (address length : Z) : M state unit :=
  disable_buf;;
  if length >=? buf_maxlen then raise (RuntimeError (LengthTooLong length buf_maxlen))
  else
    setattr "buf_addr_reg" address;;
    setattr "buf_len_reg" length.

Definition config (address length : Z) : M state unit :=
  config_avg address length;;
  config_buf address length.

Definition transfer_avg (address length : Z) : M state (list (Z * Z)) :=
  if length >=? avg_maxlen then raise (RuntimeError (LengthTooLong length avg_maxlen))
  else
    let transferlen := length + length `mod` 2 in
    switch_avg_sel switch_ch;;
    setattr "avg_dr_addr_reg" address;;
    setattr "avg_dr_len_reg" transferlen;;
    setattr "avg_dr_start_reg" 1;;
    let! st := get in
    let '(buff, transferred) := dma_avg (avg_buff st) (transferlen * 8) in
    set_avg_buff buff;;
    setattr "avg_dr_start_reg" 0;;
    if negb (transferred =? transferlen * 8) then
      raise (RuntimeError (DmaShortTransfer transferlen (transferred `div` 8)))
    else
      ret (iq_view 32 (py_slice buff None (Some length))).

Definition transfer_buf (address length : Z) : M state (list (Z * Z)) :=
  if length >=? buf_maxlen then raise (RuntimeError (LengthTooLong length buf_maxlen))
  else
    let transferlen := length + length `mod` 2 in
    switch_buf_sel switch_ch;;
    setattr "buf_dr_addr_reg" address;;
    setattr "buf_dr_len_reg" transferlen;;
    setattr "buf_dr_start_reg" 1;;
    let! st := get in
    let '(buff, transferred) := dma_buf (buf_buff st) (transferlen * 4) in
    set_buf_buff buff;;
    if negb (transferred =? transferlen * 4) then
      raise (RuntimeError (DmaShortTransfer transferlen (transferred `div` 4)))
    else
      setattr "buf_dr_start_reg" 0;;
      ret (iq_view 16 (py_slice buff None (Some length))).
End WithGenerics.

End AxisAvgBuffer.

(** ** Input switch of the large buffers

    [MrBufferEt] and [AxisBufferDdrV1] share the handling of their input
    switch.  Modelled from the spec: the [AxisSwitch] driver is not part of
    this file's source; the switch router holds a "currently selected source
    index" which [sel] replaces. *)

Module Switch.

Record router : Type := MkRouter {
  switch : option (option Z);   (* [None]: no switch; [Some p]: a switch and its selected slave *)
  buf2switch : gmap string Z
}.

(** The part of [configure_connections] that fills [buf2switch]: with a
    switch, the buffers found behind slaves [0 .. NUM_SI-1], in this order. *)
Fixpoint wire_slaves (iIn : Z) (blocks : list string) (m : gmap string Z) : gmap string Z :=
  match blocks with
  | [] => m
  | block :: rest => wire_slaves (iIn + 1) rest (<[block := iIn]> m)
  end.

Definition wire_switch (blocks : list string) : router :=
  MkRouter (Some None) (wire_slaves 0 blocks ∅).

(** Without a switch, the one buffer behind the hard-wired readout. *)
Definition wire_direct (block : string) : router :=
  MkRouter None (<[block := 0]> ∅).

Definition set_switch (bufname : string) (r : router) : outcome unit * router :=
  match switch r with
  | None =>
      match buf2switch r !! bufname with
      | None => (Fail (KeyErrorStr bufname), r)
      | Some p => if p =? 0 then (Ok tt, r) else (Fail AssertionError, r)
      end
  | Some _ =>
      match buf2switch r !! bufname with
      | None => (Fail (KeyErrorStr bufname), r)
      | Some p => (Ok tt, MkRouter (Some (Some p)) (buf2switch r))
      end
  end.

End Switch.

(** ** MrBufferEt *)

Module MrBufferEt.

Record state : Type := MkState {
  io : mmio;
  buff : list Z               (* allocate(shape=2*maxlen, dtype=int16) *)
}.

Definition junk_len : Z := 8.

Definition enable (st : state) : state := MkState (mmio_set "dw_capture_reg" 1 (io st)) (buff st).
Definition disable (st : state) : state := MkState (mmio_set "dw_capture_reg" 0 (io st)) (buff st).

Section WithGenerics.
Variables N NM : Z.
Variable dma : dma_engine.

Definition maxlen : Z := 2 ^ N * NM.

(** The object right after [__init__]; the buffer is taken to hold zeros. *)
Definition init : state :=
  MkState (mmio_set "dr_start_reg" 0 (mmio_set "dw_capture_reg" 0 mmio_init))
          (replicate (Z.to_nat (2 * maxlen)) 0).

(** [transfer]: the DMA is started without a byte count (the whole buffer)
    and what it reports is not looked at. *)
Definition transfer (start : option Z) (st : state) : outcome (list (Z * Z)) * state :=
  let start := match start with None => junk_len | Some start => start end in
  let io1 := mmio_set "dr_start_reg" 1 (io st) in
  let '(buff', _) := dma (buff st) 0 in
  let st' := MkState (mmio_set "dr_start_reg" 0 io1) buff' in
  match reshape2 buff' with
  | Some rows => (Ok (py_slice rows (Some start) None), st')
  | None => (Fail ValueError, st')
  end.
End WithGenerics.

End MrBufferEt.

(** ** AxisBufferDdrV1 *)

Module AxisBufferDdrV1.

Record state : Type := MkState {
  io : mmio;
  ddr4_array : list Z         (* ddr4_mem.mmio.array.view('uint32') *)
}.

Definition setattr (name : string) (v : Z) : M state unit :=
  modify (fun st => MkState (mmio_set name v (io st)) (ddr4_array st)).

Definition rstop : M state unit := setattr "rstart_reg" 0.
Definition rstart : M state unit := setattr "rstart_reg" 1.
Definition wstop : M state unit := setattr "wstart_reg" 0.
Definition wstart : M state unit := setattr "wstart_reg" 1.
Definition wlen (len_ : Z) : M state unit := setattr "wnburst_reg" len_.

(** [self.cfg['maxlen'] = self.ddr4_array.shape[0]] *)
Definition maxlen (st : state) : Z := Z.of_nat (length (ddr4_array st)).

(** A backend serving [ddr4_array[lo:hi].copy()]: the copy of the words
    in the slice, or the way the access dies. *)
Definition raw_copy : Type := list Z -> Z -> Z -> result (list Z).

(** The memory-mapped array of the board.  The words are 32 bits wide and,
    as [get_mem] notes, "the start and end need to be aligned to multiples
    of 64 bits.  violations result in the Python interpreter crashing on
    SIGBUS/BUS_ADRALN": a slice with an odd bound kills the interpreter, a
    slice with even bounds is copied. *)
Definition ddr4_copy : raw_copy := fun arr lo hi =>
  if (lo `mod` 2 =? 0) && (hi `mod` 2 =? 0)
  then Return (py_slice arr (Some lo) (Some hi))
  else Raise SIGBUS.

Section WithGenerics.
(** [DATA_WIDTH] and [BURST_SIZE] (the description's value plus one). *)
Variables DATA_WIDTH BURST_SIZE : Z.

Definition burst_len : Z := (DATA_WIDTH * BURST_SIZE) `div` 32.
Definition junk_len : Z := (50 * DATA_WIDTH) `div` 32 + 1.

(** The locals [start] and [end] of [get_mem]. *)
Definition get_mem_window (nt : Z) (start : option Z) : Z * Z :=
  match start with
  | None => (junk_len, nt * burst_len)
  | Some start => (start, start + nt * burst_len)
  end.

(** [get_mem], with the array access [ddr4_array[...].copy()] served by
    [copy]. *)
Definition get_mem_on (copy : raw_copy) (nt : Z) (start : option Z)
  : M state (list (Z * Z)) :=
  let '(start, end_) := get_mem_window nt start in
  let length := end_ - start in
  let! st := get in
  let! buf_copy :=
    lift (copy (ddr4_array st) (start - start `mod` 2) (end_ + end_ `mod` 2)) in
  ret (iq_view 16
         (py_slice buf_copy (Some (start `mod` 2)) (Some (length + start `mod` 2)))).

(** [get_mem] on the board. *)
Definition get_mem : Z -> option Z -> M state (list (Z * Z)) := get_mem_on ddr4_copy.

Definition arm (nt : Z) (force_overwrite : bool) : M state unit :=
  let! st := get in
  if burst_len =? 0 then raise ZeroDivisionError else
  if (nt >? maxlen st `div` burst_len) && negb force_overwrite then
    raise (RuntimeError DdrOverwrite)
  else
    wlen nt;;
    wstop;;
    wstart.
End WithGenerics.

Definition set_ddr4_array (a : list Z) : M state unit :=
  modify (fun st => MkState (io st) a).

(** [np.copyto(self.ddr4_array[:length], 0)], or the whole array for
    [length=None]. *)
Definition clear_mem (length : option Z) : M state unit :=
  let! st := get in
  let k := Datatypes.length (py_slice (ddr4_array st) None length) in
  set_ddr4_array (replicate k 0 ++ drop k (ddr4_array st)).

Section JunkBursts.
Variables DATA_WIDTH BURST_SIZE : Z.

(** [int(np.ceil(self['junk_len']/self.cfg['burst_len']))] *)
Definition junk_nt : result Z :=
  if burst_len DATA_WIDTH BURST_SIZE =? 0 then Raise ZeroDivisionError
  else Return (Qceiling (inject_Z (junk_len DATA_WIDTH)
                           / inject_Z (burst_len DATA_WIDTH BURST_SIZE))).
End JunkBursts.

End AxisBufferDdrV1.


(** * Properties *)

(** ** Register reads after writes *)

Lemma mmio_set_lookup name v io : regs (mmio_set name v io) !! name = Some v.
Proof. unfold mmio_set; simpl. apply lookup_insert_eq. Qed.

Lemma mmio_set_lookup_ne name name' v io :
  name ≠ name' -> regs (mmio_set name v io) !! name' = regs io !! name'.
Proof. intros Hne. unfold mmio_set; simpl. by apply lookup_insert_ne. Qed.

Lemma mmio_set_writes name v io :
  writes (mmio_set name v io) = writes io ++ [(name, v)].
Proof. reflexivity. Qed.

(** Read a register back through a stack of writes to literal names. *)
Ltac mmio_lookup :=
  repeat first
    [ rewrite mmio_set_lookup
    | rewrite mmio_set_lookup_ne by (simpl; discriminate) ].

(** ** AxisPFBReadoutV2: collisions and fan-out *)

Section PFBv2_facts.
Import AxisPFBReadoutV2.

Lemma v2_wf_initialize : wf initialize.
Proof. intros c [x Hx]. unfold initialize in Hx; simpl in Hx. by rewrite lookup_empty in Hx. Qed.

Lemma v2_set_freq_int_cases f_int in_ch out_ch st :
  set_freq_int f_int in_ch out_ch st =
    match ch_freqs st !! in_ch with
    | Some old =>
        if decide (f_int = old) then (Return tt, committed f_int in_ch out_ch st)
        else match out_chs st !! in_ch with
             | Some o => (Raise (RuntimeError (FrequencyCollision out_ch o in_ch)), st)
             | None => (Raise (KeyError in_ch), st)
             end
    | None => (Return tt, committed f_int in_ch out_ch st)
    end.
Proof.
  unfold set_freq_int, bind, get; simpl.
  destruct (ch_freqs st !! in_ch) as [old|] eqn:Hold; [|reflexivity].
  destruct (decide (f_int = old)) as [->|Hne].
  - by rewrite Z.eqb_refl.
  - apply Z.eqb_neq in Hne. rewrite Hne; simpl.
    by destruct (out_chs st !! in_ch).
Qed.

Lemma v2_wf_committed f_int in_ch out_ch st : wf st -> wf (committed f_int in_ch out_ch st).
Proof.
  intros Hwf c. unfold committed; simpl.
  destruct (decide (in_ch = c)) as [->|Hne].
  - rewrite !lookup_insert_eq. eauto.
  - rewrite !lookup_insert_ne by done. apply Hwf.
Qed.

Lemma v2_wf_set_freq_int f_int in_ch out_ch st :
  wf st -> wf (set_freq_int f_int in_ch out_ch st).2.
Proof.
  intros Hwf. rewrite v2_set_freq_int_cases.
  destruct (ch_freqs st !! in_ch); [|by apply v2_wf_committed].
  destruct (decide _); [by apply v2_wf_committed|].
  by destruct (out_chs st !! in_ch).
Qed.

Lemma chsel_ne_freq (a b : Z) : "ch" +:+ pretty a +:+ "sel_reg" ≠ "freq" +:+ pretty b +:+ "_reg".
Proof. simpl. discriminate. Qed.

(** C2. If mixing channel [in_ch] already holds a committed tuning word
    [old], then a request for [in_ch] with a different word raises the
    collision error and leaves the whole object (committed words, output
    bindings, registers) as it was; a request with the same word returns
    normally, keeps the committed words, binds [out_ch] to [in_ch] and
    writes the selection register of [out_ch] and the frequency register of
    [in_ch], touching no other register. *)
Theorem v2_set_freq_int_collision (st : state) (f_int in_ch out_ch old : Z) :
  wf st ->
  ch_freqs st !! in_ch = Some old ->
  let r := set_freq_int f_int in_ch out_ch st in
  (f_int ≠ old -> is_collision_error r.1 ∧ r.2 = st) ∧
  (f_int = old ->
     r.1 = Return tt ∧
     ch_freqs r.2 = ch_freqs st ∧
     out_chs r.2 = <[in_ch := out_ch]> (out_chs st) ∧
     regs (io r.2) !! ("ch" +:+ pretty out_ch +:+ "sel_reg") = Some in_ch ∧
     regs (io r.2) !! ("freq" +:+ pretty in_ch +:+ "_reg") = Some f_int ∧
     (forall name, name ≠ "ch" +:+ pretty out_ch +:+ "sel_reg" ->
                   name ≠ "freq" +:+ pretty in_ch +:+ "_reg" ->
                   regs (io r.2) !! name = regs (io st) !! name)).
Proof.
  intros Hwf Hold r. subst r. rewrite v2_set_freq_int_cases, Hold.
  split.
  - intros Hne. destruct (decide (f_int = old)) as [?|_]; [done|].
    destruct (Hwf in_ch) as [o Ho]; [eauto|]. rewrite Ho. by split.
  - intros ->. destruct (decide (old = old)) as [_|?]; [|done].
    unfold committed. cbn [fst snd io ch_freqs out_chs].
    split_and!.
    + done.
    + by apply insert_id.
    + done.
    + rewrite mmio_set_lookup_ne by (apply not_eq_sym, chsel_ne_freq).
      apply mmio_set_lookup.
    + apply mmio_set_lookup.
    + intros name H1 H2. by rewrite !mmio_set_lookup_ne.
Qed.

Lemma v2_set_freq_int_collision_witness :
  let st := (set_freq_int 7 5 0 initialize).2 in
  let r := set_freq_int 9 5 1 st in
  (9 ≠ 7 -> is_collision_error r.1 ∧ r.2 = st) ∧
  (9 = 7 -> r.1 = Return tt ∧
     ch_freqs r.2 = ch_freqs st ∧
     out_chs r.2 = <[5 := 1]> (out_chs st) ∧
     regs (io r.2) !! ("ch" +:+ pretty 1 +:+ "sel_reg") = Some 5 ∧
     regs (io r.2) !! ("freq" +:+ pretty 5 +:+ "_reg") = Some 9 ∧
     (forall name, name ≠ "ch" +:+ pretty 1 +:+ "sel_reg" ->
                   name ≠ "freq" +:+ pretty 5 +:+ "_reg" ->
                   regs (io r.2) !! name = regs (io st) !! name)).
Proof.
  apply (v2_set_freq_int_collision (set_freq_int 7 5 0 initialize).2 9 5 1 7).
  - apply v2_wf_set_freq_int, v2_wf_initialize.
  - reflexivity.
Defined.

End PFBv2_facts.

(** ** AxisAvgBuffer: configuring the capture windows *)

Section AvgBuffer_config.
Import AxisAvgBuffer.

(** C1, as stated, fails for the averaging window: on a unit with
    [N_AVG = 10], so [avg_maxlen = 1024], [config_avg(0, 1024)] returns
    normally and leaves [avg_len_reg = 1024]. *)
Lemma config_avg_accepts_full_length :
  let st := init 10 10 in
  let r := config_avg 0 1024 st in
  1024 >= avg_maxlen 10 ∧
  r.1 = Return tt ∧
  ¬ is_range_error r.1 ∧
  regs (io st) !! "avg_len_reg" = None ∧
  regs (io r.2) !! "avg_len_reg" = Some 1024.
Proof.
  cbv zeta. split_and!.
  - by vm_compute.
  - reflexivity.
  - vm_compute. tauto.
  - by vm_compute.
  - unfold config_avg, disable_avg, setattr, bind, modify; cbn [fst snd io].
    by mmio_lookup.
Qed.

(** C1, amended.  [config_buf] disables the capture and then rejects a
    length at or above [buf_maxlen] with the length error before any window
    register is written; below [buf_maxlen] it returns and records the
    window.  [config_avg] compares its length with nothing: for every
    address and length it disables the averager, records the window and
    returns. *)
Theorem config_window_checks (N_BUF address len : Z) (st : state) :
  let rb := config_buf N_BUF address len st in
  let ra := config_avg address len st in
  (len >= buf_maxlen N_BUF ->
     rb.1 = Raise (RuntimeError (LengthTooLong len (buf_maxlen N_BUF))) ∧
     is_range_error rb.1 ∧
     regs (io rb.2) !! "buf_addr_reg" = regs (io st) !! "buf_addr_reg" ∧
     regs (io rb.2) !! "buf_len_reg" = regs (io st) !! "buf_len_reg" ∧
     regs (io rb.2) !! "buf_start_reg" = Some 0) ∧
  (len < buf_maxlen N_BUF ->
     rb.1 = Return tt ∧
     regs (io rb.2) !! "buf_addr_reg" = Some address ∧
     regs (io rb.2) !! "buf_len_reg" = Some len ∧
     regs (io rb.2) !! "buf_start_reg" = Some 0) ∧
  ra.1 = Return tt ∧
  regs (io ra.2) !! "avg_addr_reg" = Some address ∧
  regs (io ra.2) !! "avg_len_reg" = Some len ∧
  regs (io ra.2) !! "avg_start_reg" = Some 0.
Proof.
  intros rb ra. subst rb ra.
  unfold config_buf, config_avg, disable_buf, disable_avg, setattr, bind, modify, raise.
  split_and!.
  - intros Hlen. assert ((len >=? buf_maxlen N_BUF) = true) as -> by lia.
    cbn [fst snd io is_range_error]. split_and!; by mmio_lookup.
  - intros Hlen. assert ((len >=? buf_maxlen N_BUF) = false) as -> by lia.
    cbn [fst snd io]. split_and!; by mmio_lookup.
  - done.
  - cbn [fst snd io]. by mmio_lookup.
  - cbn [fst snd io]. by mmio_lookup.
  - cbn [fst snd io]. by mmio_lookup.
Qed.

(** The values of the specification's example: on a unit with capacity 1024
    a window of 100 samples is accepted by both, a window of 1024 samples is
    refused by [config_buf]. *)
Example config_buf_1024 :
  (config_buf 10 0 100 (init 10 10)).1 = Return tt ∧
  (config_avg 0 100 (init 10 10)).1 = Return tt ∧
  (config_buf 10 0 1024 (init 10 10)).1 = Raise (RuntimeError (LengthTooLong 1024 1024)).
Proof. by vm_compute. Qed.

End AvgBuffer_config.

(** ** AxisAvgBuffer: transfers *)

Section AvgBuffer_transfer.
Import AxisAvgBuffer.
Variables N_AVG N_BUF switch_ch : Z.
Variables dma_avg dma_buf : dma_engine.

Abbreviation xfer_avg := (transfer_avg N_AVG switch_ch dma_avg).
Abbreviation xfer_buf := (transfer_buf N_BUF switch_ch dma_buf).

Lemma py_slice_prefix {A} (l : list A) (n : Z) :
  0 <= n <= Z.of_nat (length l) ->
  py_slice l None (Some n) = take (Z.to_nat n) l.
Proof.
  intros Hn. unfold py_slice, py_index.
  assert ((n <? 0) = false) as -> by lia.
  rewrite Z.min_l by lia. by rewrite drop_0.
Qed.

(** The outcome of [transfer_avg] once the length check has passed. *)
Lemma transfer_avg_run address len st :
  len < avg_maxlen N_AVG ->
  let tl := len + len `mod` 2 in
  let out := dma_avg (avg_buff st) (tl * 8) in
  let io' :=
    mmio_set "avg_dr_start_reg" 0
      (mmio_set "avg_dr_start_reg" 1
         (mmio_set "avg_dr_len_reg" tl
            (mmio_set "avg_dr_addr_reg" address (io st)))) in
  xfer_avg address len st =
    (if out.2 =? tl * 8
     then Return (iq_view 32 (py_slice out.1 None (Some len)))
     else Raise (RuntimeError (DmaShortTransfer tl (out.2 `div` 8))),
     MkState io' out.1 (buf_buff st) (Some switch_ch) (switch_buf st)).
Proof.
  intros Hlen tl out io'. unfold transfer_avg.
  assert ((len >=? avg_maxlen N_AVG) = false) as -> by lia.
  unfold bind, switch_avg_sel, setattr, set_avg_buff, modify, get, raise, ret.
  cbn [fst snd io avg_buff buf_buff switch_avg switch_buf].
  fold tl. fold out. destruct out as [buff transferred] eqn:Hout.
  cbn [fst snd io avg_buff buf_buff switch_avg switch_buf].
  by destruct (transferred =? tl * 8).
Qed.

(** The outcome of [transfer_buf] once the length check has passed; the
    send flag is only cleared on the path that does not raise. *)
Lemma transfer_buf_run address len st :
  len < buf_maxlen N_BUF ->
  let tl := len + len `mod` 2 in
  let out := dma_buf (buf_buff st) (tl * 4) in
  let io1 :=
    mmio_set "buf_dr_start_reg" 1
      (mmio_set "buf_dr_len_reg" tl
         (mmio_set "buf_dr_addr_reg" address (io st))) in
  xfer_buf address len st =
    if out.2 =? tl * 4
    then (Return (iq_view 16 (py_slice out.1 None (Some len))),
          MkState (mmio_set "buf_dr_start_reg" 0 io1) (avg_buff st) out.1
            (switch_avg st) (Some switch_ch))
    else (Raise (RuntimeError (DmaShortTransfer tl (out.2 `div` 4))),
          MkState io1 (avg_buff st) out.1 (switch_avg st) (Some switch_ch)).
Proof.
  intros Hlen tl out io1. unfold transfer_buf.
  assert ((len >=? buf_maxlen N_BUF) = false) as -> by lia.
  unfold bind, switch_buf_sel, setattr, set_buf_buff, modify, get, raise, ret.
  cbn [fst snd io avg_buff buf_buff switch_avg switch_buf].
  fold tl. fold out. destruct out as [buff transferred] eqn:Hout.
  cbn [fst snd io avg_buff buf_buff switch_avg switch_buf].
  by destruct (transferred =? tl * 4).
Qed.

Lemma transfer_avg_too_long address len st :
  len >= avg_maxlen N_AVG ->
  xfer_avg address len st = (Raise (RuntimeError (LengthTooLong len (avg_maxlen N_AVG))), st).
Proof.
  intros Hlen. unfold transfer_avg.
  by assert ((len >=? avg_maxlen N_AVG) = true) as -> by lia.
Qed.

Lemma transfer_buf_too_long address len st :
  len >= buf_maxlen N_BUF ->
  xfer_buf address len st = (Raise (RuntimeError (LengthTooLong len (buf_maxlen N_BUF))), st).
Proof.
  intros Hlen. unfold transfer_buf.
  by assert ((len >=? buf_maxlen N_BUF) = true) as -> by lia.
Qed.

(** C3. [transfer_avg] and [transfer_buf] raise the transfer error exactly
    when the DMA was started (the length check passed) and the byte count it
    reports differs from the padded request, [transferlen] times the sample
    size (8 bytes for the averaging buffer, 4 for the decimated one); they
    return a sample array exactly when the DMA was started and the counts
    agree.  An outcome is either a raised error or a returned array, so a
    raised transfer error returns no array. *)
Theorem transfer_checks_dma_byte_count (address len : Z) (st : state) :
  let tl := len + len `mod` 2 in
  let ra := xfer_avg address len st in
  let rb := xfer_buf address len st in
  let got_avg := (dma_avg (avg_buff st) (tl * 8)).2 in
  let got_buf := (dma_buf (buf_buff st) (tl * 4)).2 in
  (is_transfer_error ra.1 ↔ len < avg_maxlen N_AVG ∧ got_avg ≠ tl * 8) ∧
  (returns ra.1 ↔ len < avg_maxlen N_AVG ∧ got_avg = tl * 8) ∧
  (is_transfer_error rb.1 ↔ len < buf_maxlen N_BUF ∧ got_buf ≠ tl * 4) ∧
  (returns rb.1 ↔ len < buf_maxlen N_BUF ∧ got_buf = tl * 4).
Proof.
  intros tl ra rb got_avg got_buf.
  assert (Ha : (is_transfer_error ra.1 ↔ len < avg_maxlen N_AVG ∧ got_avg ≠ tl * 8) ∧
               (returns ra.1 ↔ len < avg_maxlen N_AVG ∧ got_avg = tl * 8)).
  { subst ra. destruct (Z_lt_ge_dec len (avg_maxlen N_AVG)) as [Hlt|Hge].
    - rewrite transfer_avg_run by done. cbn [fst]. fold tl. fold got_avg.
      destruct (Z.eqb_spec got_avg (tl * 8)); simpl; split; split; tauto.
    - rewrite transfer_avg_too_long by done. simpl. split; split; try tauto; lia. }
  assert (Hb : (is_transfer_error rb.1 ↔ len < buf_maxlen N_BUF ∧ got_buf ≠ tl * 4) ∧
               (returns rb.1 ↔ len < buf_maxlen N_BUF ∧ got_buf = tl * 4)).
  { subst rb. destruct (Z_lt_ge_dec len (buf_maxlen N_BUF)) as [Hlt|Hge].
    - rewrite transfer_buf_run by done. fold tl. fold got_buf.
      destruct (Z.eqb_spec got_buf (tl * 4)); simpl; split; split; tauto.
    - rewrite transfer_buf_too_long by done. simpl. split; split; try tauto; lia. }
  tauto.
Qed.

Lemma pad_even (len : Z) :
  let tl := len + len `mod` 2 in tl `mod` 2 = 0 ∧ len <= tl <= len + 1.
Proof.
  intros tl. subst tl. pose proof (Z.mod_pos_bound len 2 ltac:(lia)).
  split; [|lia].
  rewrite Z.add_mod by lia. rewrite Z.mod_mod by lia.
  assert (len `mod` 2 = 0 ∨ len `mod` 2 = 1) as [->| ->] by lia; reflexivity.
Qed.

Lemma iq_view_length bits ws : length (iq_view bits ws) = length ws.
Proof. unfold iq_view. apply length_map. Qed.

(** C4. For a sample count [len] below the capacity, both transfers program
    the read-out window with the start address and with [len] rounded up to
    the next even count, ask the DMA for that padded count, and, when the
    DMA moved what was asked, return exactly [len] (I, Q) pairs: the views
    of the first [len] words of the transfer buffer. *)
Theorem transfer_pads_to_even (address len : Z) (st : state) :
  (forall b n, length (dma_avg b n).1 = length b) ->
  (forall b n, length (dma_buf b n).1 = length b) ->
  Z.of_nat (length (avg_buff st)) = avg_maxlen N_AVG ->
  Z.of_nat (length (buf_buff st)) = buf_maxlen N_BUF ->
  0 <= len ->
  let tl := len + len `mod` 2 in
  tl `mod` 2 = 0 ∧ len <= tl <= len + 1 ∧
  (len < avg_maxlen N_AVG ->
     let r := xfer_avg address len st in
     regs (io r.2) !! "avg_dr_addr_reg" = Some address ∧
     regs (io r.2) !! "avg_dr_len_reg" = Some tl ∧
     avg_buff r.2 = (dma_avg (avg_buff st) (tl * 8)).1 ∧
     ((dma_avg (avg_buff st) (tl * 8)).2 = tl * 8 ->
        exists data, r.1 = Return data ∧ Z.of_nat (length data) = len ∧
                     data = iq_view 32 (take (Z.to_nat len) (avg_buff r.2)))) ∧
  (len < buf_maxlen N_BUF ->
     let r := xfer_buf address len st in
     regs (io r.2) !! "buf_dr_addr_reg" = Some address ∧
     regs (io r.2) !! "buf_dr_len_reg" = Some tl ∧
     buf_buff r.2 = (dma_buf (buf_buff st) (tl * 4)).1 ∧
     ((dma_buf (buf_buff st) (tl * 4)).2 = tl * 4 ->
        exists data, r.1 = Return data ∧ Z.of_nat (length data) = len ∧
                     data = iq_view 16 (take (Z.to_nat len) (buf_buff r.2)))).
Proof.
  intros Hdma_avg Hdma_buf Havg Hbuf Hlen tl.
  destruct (pad_even len) as [Heven Hbound]. fold tl in Heven, Hbound.
  split_and!; [done|lia|lia| |].
  - intros Hlt r. subst r. rewrite transfer_avg_run by done. fold tl.
    cbn [fst snd io avg_buff]. split_and!; [by mmio_lookup|by mmio_lookup|done|].
    intros ->. rewrite Z.eqb_refl. eexists; split; [reflexivity|].
    assert (0 <= len <= Z.of_nat (length (dma_avg (avg_buff st) (tl * 8)).1))
      by (rewrite Hdma_avg; lia).
    rewrite py_slice_prefix by done. split; [|done].
    rewrite iq_view_length, length_take. lia.
  - intros Hlt r. subst r. rewrite transfer_buf_run by done. fold tl.
    destruct (Z.eqb_spec (dma_buf (buf_buff st) (tl * 4)).2 (tl * 4)) as [Heq|Hne];
      cbn [fst snd io buf_buff]; (split_and!; [by mmio_lookup|by mmio_lookup|done|]);
      [|done].
    intros _. eexists; split; [reflexivity|].
    assert (0 <= len <= Z.of_nat (length (dma_buf (buf_buff st) (tl * 4)).1))
      by (rewrite Hdma_buf; lia).
    rewrite py_slice_prefix by done. split; [|done].
    rewrite iq_view_length, length_take. lia.
Qed.

End AvgBuffer_transfer.

(** A transfer of 101 averaged samples on a unit with [N_AVG = 10]: the
    window register holds 102, the caller receives 101 pairs. *)
Lemma transfer_pads_to_even_witness :
  let dma : dma_engine := fun b n => (replicate (length b) 4294967298, n) in
  let r := AxisAvgBuffer.transfer_avg 10 3 dma 0 101 (AxisAvgBuffer.init 10 10) in
  regs (AxisAvgBuffer.io r.2) !! "avg_dr_len_reg" = Some 102 ∧
  exists data, r.1 = Return data ∧ Z.of_nat (length data) = 101.
Proof.
  intros dma r.
  assert (Hdma : forall b n, length (dma b n).1 = length b)
    by (intros b n; apply length_replicate).
  destruct (transfer_pads_to_even 10 10 3 dma dma 0 101 (AxisAvgBuffer.init 10 10)
              Hdma Hdma eq_refl eq_refl ltac:(lia))
    as (_ & _ & Havg & _).
  destruct (Havg eq_refl) as (_ & Hreg & _ & Hdata).
  split; [exact Hreg|].
  destruct (Hdata eq_refl) as (data & Hret & Hlen & _).
  exists data. split; [exact Hret | exact Hlen].
Defined.

(** A DMA that reports 198 bytes against the 208 requested for 25 samples
    (padded to 26): the transfer raises, and the same call returns once the
    count agrees. *)
Example transfer_avg_short_dma :
  let short : dma_engine := fun b n => (b, 198) in
  let exact : dma_engine := fun b n => (b, n) in
  let st := AxisAvgBuffer.init 10 10 in
  (AxisAvgBuffer.transfer_avg 10 3 short 0 25 st).1
    = Raise (RuntimeError (DmaShortTransfer 26 24)) ∧
  returns (AxisAvgBuffer.transfer_avg 10 3 exact 0 25 st).1.
Proof. by vm_compute. Qed.

(** ** Nyquist folding and filter-bank channel selection *)

Lemma np_round_nearest (x : Q) : (Qabs (x - inject_Z (np_round x)) <= 1 # 2)%Q.
Proof.
  apply Qabs_Qle_condition. unfold np_round.
  pose proof (Qfloor_le x) as Hlo. pose proof (Qlt_floor x) as Hhi.
  rewrite inject_Z_plus in Hhi. change (inject_Z 1) with 1%Q in Hhi.
  destruct (Qcompare_spec (x - inject_Z (Qfloor x)) (1 # 2)) as [He|Hl|Hg].
  - destruct (Z.even (Qfloor x));
      [|rewrite inject_Z_plus; change (inject_Z 1) with 1%Q]; lra.
  - lra.
  - rewrite inject_Z_plus; change (inject_Z 1) with 1%Q. lra.
Qed.

(** The zone index names the half-open band of width [fs/2] that holds the
    frequency. *)
Lemma nqz_band (fs f : Q) :
  (0 < fs)%Q ->
  (inject_Z (nqz fs f - 1) * (fs / 2) <= f < inject_Z (nqz fs f) * (fs / 2))%Q.
Proof.
  intros Hfs. unfold nqz.
  assert (Hh : (0 < fs / 2)%Q) by (apply Qlt_shift_div_l; lra).
  set (h := (fs / 2)%Q) in *.
  assert (Hq : (f / h * h == f)%Q) by (field; lra).
  pose proof (Qfloor_le (f / h)) as Hlo. pose proof (Qlt_floor (f / h)) as Hhi.
  replace (Qfloor (f / h) + 1 - 1) with (Qfloor (f / h)) by lia.
  split.
  - rewrite <- Hq at 2. apply Qmult_le_compat_r; [done|lra].
  - rewrite <- Hq at 1. apply Qmult_lt_compat_r; done.
Qed.

Lemma fold_nqz_even (fs f : Q) :
  Z.even (nqz fs f) = true -> (fold_nqz fs f == - f)%Q.
Proof.
  intros He. unfold fold_nqz. apply Zeven_bool_iff, Zeven_ex_iff in He as [k Hk].
  rewrite Hk. replace (2 * k) with (k * 2) by lia. rewrite Z_mod_mult. simpl. ring.
Qed.

Lemma fold_nqz_odd (fs f : Q) :
  Z.even (nqz fs f) = false -> fold_nqz fs f = f.
Proof.
  intros Ho. unfold fold_nqz.
  destruct (Z.eqb_spec (nqz fs f `mod` 2) 0) as [Hz|Hnz]; [|done].
  apply Zmod_divides in Hz as [k Hk]; [|lia].
  rewrite Hk, Z.even_mul in Ho. done.
Qed.

(** *** Negation on binary64 floats *)

(** Multiplying a float by -1 flips its sign and nothing else. *)
Lemma digits2_pos_shift52 (m : positive) :
  Z.pos (SpecFloat.digits2_pos (Pos.iter xO m 52)) = Z.pos (SpecFloat.digits2_pos m) + 52.
Proof. cbn [Pos.iter SpecFloat.digits2_pos]. rewrite !Pos2Z.inj_succ. lia. Qed.

Lemma shr_52 (m : positive) (e : Z) :
  SpecFloat.shr (SpecFloat.Build_shr_record (Z.pos (Pos.iter xO m 52)) false false) e 52
  = (SpecFloat.Build_shr_record (Z.pos m) false false, e + 52).
Proof. reflexivity. Qed.

Lemma F64_mul_neg1 (x : SpecFloat.spec_float) :
  SpecFloat.valid_binary F64.prec F64.emax x = true ->
  F64.mul x (F64.of_Z (-1)) = SpecFloat.SFopp x.
Proof.
  intros Hv. destruct x as [[]|[]| |sx mx ex]; try done.
  change (F64.of_Z (-1)) with (SpecFloat.S754_finite true 4503599627370496 (-52)).
  unfold F64.mul, SpecFloat.SFmul.
  replace (xorb sx true) with (negb sx) by (by destruct sx).
  rewrite Pos.mul_comm.
  change (4503599627370496 * mx)%positive with (Pos.iter xO mx 52).
  simpl in Hv. apply andb_true_iff in Hv as [Hc Hb].
  unfold SpecFloat.canonical_mantissa in Hc. apply Z.eqb_eq in Hc. apply Z.leb_le in Hb.
  unfold SpecFloat.binary_round_aux, SpecFloat.shr_fexp.
  cbn [SpecFloat.Zdigits2 SpecFloat.shr_record_of_loc].
  rewrite digits2_pos_shift52.
  replace (Z.pos (SpecFloat.digits2_pos mx) + 52 + (ex + -52))
    with (Z.pos (SpecFloat.digits2_pos mx) + ex) by lia.
  rewrite Hc. replace (ex - (ex + -52)) with 52 by lia.
  rewrite shr_52. cbn [SpecFloat.shr_m SpecFloat.loc_of_shr_record SpecFloat.round_nearest_even
                       SpecFloat.Zdigits2 SpecFloat.shr_record_of_loc].
  replace (ex + -52 + 52) with ex by lia.
  rewrite Hc, Z.sub_diag. cbn [SpecFloat.shr SpecFloat.shr_m].
  apply Z.leb_le in Hb. by rewrite Hb.
Qed.

(** C5, as stated, fails on its example: with [fs = 100] the zones are 50
    wide, so 120 lies in zone 3 and is not negated, and 220 lies in
    zone 5; so it is in exact arithmetic and on the floats of [set_freq]. *)
Lemma nyquist_zone_of_120_is_not_2 :
  nqz 100 120 ≠ 2 ∧ ¬ (fold_nqz 100 120 == - (120))%Q ∧ nqz 100 220 ≠ 3 ∧
  nqz_f64 (F64.of_Z 100) (F64.of_Z 120) ≠ Return 2 ∧
  fold_f64 (F64.of_Z 100) (F64.of_Z 120) ≠ Return (F64.of_Z (-120)) ∧
  nqz_f64 (F64.of_Z 100) (F64.of_Z 220) ≠ Return 3.
Proof.
  split_and!; by vm_compute.
Qed.

(** [fold_f64] negates exactly when the zone index is even. *)
Lemma fold_f64_run (fs ro_freq : SpecFloat.spec_float) (n : Z) :
  SpecFloat.valid_binary F64.prec F64.emax ro_freq = true ->
  nqz_f64 fs ro_freq = Return n ->
  fold_f64 fs ro_freq = Return (if Z.even n then SpecFloat.SFopp ro_freq else ro_freq).
Proof.
  intros Hv Hn. unfold fold_f64. rewrite Hn. f_equal.
  rewrite Zmod_even, (F64_mul_neg1 _ Hv). by destruct (Z.even n).
Qed.

(** C5, amended.  The zone index is [floor(f / (fs/2)) + 1], which names the
    band of width [fs/2] that holds [f]; the frequency is negated exactly
    when the index is even.  With [fs = 100]: 120 is in zone 3 and 220 in
    zone 5, both odd, both unchanged; 60 is in zone 2 and folds to -60.
    On the floats of [set_freq] the index is [int(f // (fs/2)) + 1] with
    Python's floor division, the sign of the frequency is flipped exactly
    when the index is even, the three examples come out the same, and the
    request for 60 is sent to channel 3, one step below the centre. *)
Theorem nyquist_zone_fold (fs f : Q) :
  nqz fs f = Qfloor (f / (fs / 2)) + 1 ∧
  ((0 < fs)%Q ->
     (inject_Z (nqz fs f - 1) * (fs / 2) <= f < inject_Z (nqz fs f) * (fs / 2))%Q) ∧
  (Z.even (nqz fs f) = true -> (fold_nqz fs f == - f)%Q) ∧
  (Z.even (nqz fs f) = false -> fold_nqz fs f = f) ∧
  (nqz 100 120 = 3 ∧ fold_nqz 100 120 = 120%Q) ∧
  (nqz 100 220 = 5 ∧ fold_nqz 100 220 = 220%Q) ∧
  (nqz 100 60 = 2 ∧ (fold_nqz 100 60 == - (60))%Q) ∧
  (forall fs64 f64 n,
     SpecFloat.valid_binary F64.prec F64.emax f64 = true ->
     nqz_f64 fs64 f64 = Return n ->
     py_int (F64.floordiv f64 (F64.div fs64 (F64.of_Z 2))) = Return (n - 1) ∧
     fold_f64 fs64 f64 = Return (if Z.even n then SpecFloat.SFopp f64 else f64)) ∧
  (nqz_f64 (F64.of_Z 100) (F64.of_Z 120) = Return 3 ∧
   fold_f64 (F64.of_Z 100) (F64.of_Z 120) = Return (F64.of_Z 120)) ∧
  (nqz_f64 (F64.of_Z 100) (F64.of_Z 220) = Return 5 ∧
   fold_f64 (F64.of_Z 100) (F64.of_Z 220) = Return (F64.of_Z 220)) ∧
  (nqz_f64 (F64.of_Z 100) (F64.of_Z 60) = Return 2 ∧
   fold_f64 (F64.of_Z 100) (F64.of_Z 60) = Return (F64.of_Z (-60))) ∧
  (forall out_ch st,
     AxisPFBReadoutV2.set_freq soc_plain (F64.of_Z 100) (F64.of_Z 100) (F64.of_Z 60)
       out_ch None st
     = AxisPFBReadoutV2.set_freq_int (-10) 3 out_ch st).
Proof.
  split_and!;
    [reflexivity|apply nqz_band|apply fold_nqz_even|apply fold_nqz_odd
    |by vm_compute|by vm_compute|by vm_compute|by vm_compute|by vm_compute|by vm_compute| |by vm_compute|by vm_compute|by vm_compute|by vm_compute|by vm_compute|by vm_compute| ].
  - intros fs64 f64 n Hv Hn. split; [|by apply fold_f64_run].
    unfold nqz_f64 in Hn.
    destruct (F64.is_zero _); [done|].
    destruct (py_int _) as [z|e]; [|done].
    injection Hn as <-. f_equal. lia.
  - intros out_ch st. unfold AxisPFBReadoutV2.set_freq, bind, lift.
    change (ro_freq_of soc_plain (F64.of_Z 60) None) with (F64.of_Z 60).
    assert (fold_f64 (F64.of_Z 100) (F64.of_Z 60) = Return (F64.of_Z (-60))) as ->
      by (by vm_compute).
    assert (steps_f64 (F64.of_Z 100) (F64.of_Z (-60)) = Return (-1, F64.of_Z (-10))) as ->
      by (by vm_compute).
    reflexivity.
Qed.

Lemma pfb_channel_range (CH_OFFSET N steps : Z) :
  0 < N -> 0 <= pfb_channel CH_OFFSET N steps < N.
Proof. intros HN. unfold pfb_channel. by apply Z.mod_pos_bound. Qed.

Lemma int_np_round_finite (x : SpecFloat.spec_float) :
  F64.is_finite x = true -> int_np_round x = Return (np_round (F64.to_Q x)).
Proof. by destruct x. Qed.

(** The step count and the residual, once the half band is not zero and
    the float quotient is finite. *)
Lemma steps_f64_run (f_dds ro_freq : SpecFloat.spec_float) :
  let half_dds := F64.div f_dds (F64.of_Z 2) in
  let quotient := F64.div ro_freq half_dds in
  F64.is_zero half_dds = false -> F64.is_finite quotient = true ->
  steps_f64 f_dds ro_freq =
    Return (np_round (F64.to_Q quotient),
            F64.sub ro_freq (F64.mul (F64.of_Z (np_round (F64.to_Q quotient))) half_dds)).
Proof.
  intros half_dds quotient Hz Hfin. unfold steps_f64.
  fold half_dds. rewrite Hz. fold quotient. by rewrite (int_np_round_finite _ Hfin).
Qed.

(** C6.  All arithmetic is binary64.  With [folded] the frequency after
    Nyquist folding, [half_dds] the float [f_dds/2] (not zero) and a finite
    float quotient [folded / half_dds], [set_freq] of the filter-bank
    readouts hands [set_freq_int] the tuning word of the float
    [folded - f_steps * half_dds] and the channel
    [(CH_OFFSET + f_steps) mod N], where [f_steps] is the float quotient
    rounded to the nearest integer, ties to even (at most one half away from
    the float quotient); [N = 8] and [CH_OFFSET = 4] in [AxisPFBReadoutV2],
    [CH_OFFSET = N div 2] in the V3 and V4 readouts.  The channel is an index
    in [0, N).  With [N = 8], [CH_OFFSET = 4], [f_steps = 1] selects
    channel 5.  At [f_dds = 19.2] and [folded = 312.0] the float quotient is
    exactly 32.5, so [f_steps = 32] and the residual is the float
    4.800000000000011. *)
Theorem set_freq_selects_channel
    (soc : soc_iface) (fs f_dds f folded : SpecFloat.spec_float) (gen_ch : option Z)
    (out_ch N NOUT : Z) (st2 : AxisPFBReadoutV2.state) (st : PFBWide.state) :
  let half_dds := F64.div f_dds (F64.of_Z 2) in
  let quotient := F64.div folded half_dds in
  let steps := np_round (F64.to_Q quotient) in
  let residual := F64.sub folded (F64.mul (F64.of_Z steps) half_dds) in
  fold_f64 fs (ro_freq_of soc f gen_ch) = Return folded ->
  F64.is_zero half_dds = false -> F64.is_finite quotient = true -> 0 < N ->
  AxisPFBReadoutV2.set_freq soc fs f_dds f out_ch gen_ch st2 =
    AxisPFBReadoutV2.set_freq_int (freq2int soc residual)
      ((AxisPFBReadoutV2.CH_OFFSET + steps) `mod` 8) out_ch st2 ∧
  PFBWide.set_freq N NOUT soc fs f_dds f out_ch gen_ch st =
    PFBWide.set_freq_int N NOUT (freq2int soc residual)
      ((N `div` 2 + steps) `mod` N) out_ch st ∧
  steps_f64 f_dds folded = Return (steps, residual) ∧
  (Qabs (F64.to_Q quotient - inject_Z steps) <= 1 # 2)%Q ∧
  0 <= (AxisPFBReadoutV2.CH_OFFSET + steps) `mod` 8 < 8 ∧
  0 <= (N `div` 2 + steps) `mod` N < N ∧
  pfb_channel 4 8 1 = 5 ∧
  (F64.div (F64.of_Z 312) (F64.div (F64.lit 192 10) (F64.of_Z 2)) = F64.lit 325 10 ∧
   steps_f64 (F64.lit 192 10) (F64.of_Z 312) =
     Return (32, SpecFloat.S754_finite false 5404319552844608 (-50)) ∧
   SpecFloat.SFltb (F64.lit 48 10) (SpecFloat.S754_finite false 5404319552844608 (-50))
     = true).
Proof.
  intros half_dds quotient steps residual Hfold Hz Hfin HN.
  pose proof (steps_f64_run f_dds folded Hz Hfin) as Hsteps.
  fold half_dds quotient steps residual in Hsteps.
  split_and!.
  - unfold AxisPFBReadoutV2.set_freq, bind, lift. by rewrite Hfold, Hsteps.
  - unfold PFBWide.set_freq, bind, lift. rewrite Hfold, Hsteps.
    by assert ((N =? 0) = false) as -> by lia.
  - done.
  - apply np_round_nearest.
  - apply Z.mod_pos_bound. lia.
  - apply Z.mod_pos_bound. lia.
  - apply Z.mod_pos_bound. lia.
  - apply Z.mod_pos_bound. lia.
  - reflexivity.
  - by vm_compute.
  - by vm_compute.
  - by vm_compute.
Qed.

(** [fs = 2457.6], [f_dds = 19.2], a request for 312.0 MHz on output 0: zone
    1, the float quotient is the tie 32.5, 32 steps, channel
    [(4 + 32) mod 8 = 4] of the V2 readout and [(32 + 32) mod 64 = 0] of a
    wide readout with 64 channels, and the tuning word of the float
    4.800000000000011. *)
Lemma set_freq_selects_channel_witness :
  let fs := F64.lit 24576 10 in
  let f_dds := F64.lit 192 10 in
  let residual := SpecFloat.S754_finite false 5404319552844608 (-50) in
  AxisPFBReadoutV2.set_freq soc_plain fs f_dds (F64.of_Z 312) 0 None
      AxisPFBReadoutV2.initialize =
    AxisPFBReadoutV2.set_freq_int (freq2int soc_plain residual) 4 0
      AxisPFBReadoutV2.initialize ∧
  PFBWide.set_freq 64 4 soc_plain fs f_dds (F64.of_Z 312) 0 None PFBWide.initialize =
    PFBWide.set_freq_int 64 4 (freq2int soc_plain residual) 0 0 PFBWide.initialize.
Proof.
  intros fs f_dds residual.
  destruct (set_freq_selects_channel soc_plain fs f_dds (F64.of_Z 312) (F64.of_Z 312)
              None 0 64 4 AxisPFBReadoutV2.initialize PFBWide.initialize
              ltac:(vm_compute; reflexivity) ltac:(vm_compute; reflexivity)
              ltac:(vm_compute; reflexivity) ltac:(lia)) as (H2 & Hw & _).
  split; [exact H2 | exact Hw].
Defined.

(** ** AxisPFBReadoutV3 / V4: channel-selection word and output range *)

Lemma shiftl8_add_lor (a p : Z) :
  0 <= p < 2 ^ 8 -> Z.shiftl a 8 + p = Z.lor (Z.shiftl a 8) p.
Proof.
  intros Hp.
  assert (Hland : Z.land (Z.shiftl a 8) p = 0).
  { apply Z.bits_inj'. intros n Hn. rewrite Z.land_spec, Z.bits_0.
    destruct (Z.lt_ge_cases n 8) as [Hlt|Hge].
    - by rewrite Z.shiftl_spec_low.
    - assert (Z.testbit p n = false) as ->; [|by rewrite andb_false_r].
      destruct (Z.eq_dec p 0) as [->|Hnz]; [apply Z.bits_0|].
      apply Z.bits_above_log2; [lia|].
      assert (Z.log2 p < 8) by (apply Z.log2_lt_pow2; lia). lia. }
  rewrite Z.add_nocarry_lxor by done. by apply Z.lxor_lor.
Qed.

(** Within the first 2048 channels the packet number fits the low byte, and
    the sum the driver computes is the bitwise packing. *)
Lemma id_val_packs (pfb_ch : Z) :
  0 <= pfb_ch < 2048 ->
  PFBWide.id_val pfb_ch = Z.lor (Z.shiftl (pfb_ch `mod` 8) 8) (pfb_ch `div` 8).
Proof.
  intros Hc. unfold PFBWide.id_val, PFBWide.packet_of, PFBWide.index_of, PFBWide.L_PFB.
  rewrite Z.quot_div_nonneg by lia. apply shiftl8_add_lor.
  split; [apply Z.div_pos; lia|]. apply Z.div_lt_upper_bound; lia.
Qed.

Lemma wide_set_freq_int_ok (N NOUT f_int pfb_ch out_ch : Z) (st : PFBWide.state) :
  0 <= pfb_ch < N -> 0 <= out_ch < NOUT ->
  let r := PFBWide.set_freq_int N NOUT f_int pfb_ch out_ch st in
  r.1 = Return tt ∧
  regs (PFBWide.io r.2) !! ("id" +:+ pretty out_ch +:+ "_reg") = Some (PFBWide.id_val pfb_ch) ∧
  regs (PFBWide.io r.2) !! ("freq" +:+ pretty out_ch +:+ "_reg") = Some f_int ∧
  regs (PFBWide.io r.2) !! ("phase" +:+ pretty out_ch +:+ "_reg") = Some 0.
Proof.
  intros Hc Ho r. subst r. unfold PFBWide.set_freq_int.
  assert ((0 <=? pfb_ch) && (pfb_ch <? N) = true) as -> by lia.
  assert ((0 <=? out_ch) && (out_ch <? NOUT) = true) as -> by lia.
  unfold bind, PFBWide.setattr, modify. cbn [fst snd PFBWide.io].
  split_and!; by mmio_lookup.
Qed.

Lemma wide_set_freq_int_bad_output (N NOUT f_int pfb_ch out_ch : Z) (st : PFBWide.state) :
  ¬ (0 <= out_ch < NOUT) ->
  PFBWide.set_freq_int N NOUT f_int pfb_ch out_ch st =
    (Raise (if (0 <=? pfb_ch) && (pfb_ch <? N)
            then RuntimeError (InvalidOutputChannel out_ch)
            else AttributeError "pfb_ch"), st).
Proof.
  intros Ho. unfold PFBWide.set_freq_int.
  destruct ((0 <=? pfb_ch) && (pfb_ch <? N)); [|done].
  by assert ((0 <=? out_ch) && (out_ch <? NOUT) = false) as -> by lia.
Qed.

(** C7.  In [AxisPFBReadoutV3] (4 outputs) and [AxisPFBReadoutV4]
    (8 outputs), with at most 2048 channels so that the packet number fits
    its byte: for a channel [c] in [0, N) and an output in range, the
    selection register of the output receives [(lane << 8) | packet] with
    [packet = c div 8] and [lane = c mod 8]; for an output outside
    [0, NOUT) the call raises the invalid-output error and leaves the object
    and every register as they were.  Whatever the channel, a call with an
    output out of range raises and writes nothing. *)
Theorem wide_set_freq_int_packs_and_checks
    (N f_int pfb_ch out_ch : Z) (st : PFBWide.state) :
  N <= 2048 ->
  let packed := Z.lor (Z.shiftl (pfb_ch `mod` 8) 8) (pfb_ch `div` 8) in
  let r3 := AxisPFBReadoutV3.set_freq_int N f_int pfb_ch out_ch st in
  let r4 := AxisPFBReadoutV4.set_freq_int N f_int pfb_ch out_ch st in
  (0 <= pfb_ch < N ->
     (0 <= out_ch < 4 ->
        r3.1 = Return tt ∧
        regs (PFBWide.io r3.2) !! ("id" +:+ pretty out_ch +:+ "_reg") = Some packed) ∧
     (0 <= out_ch < 8 ->
        r4.1 = Return tt ∧
        regs (PFBWide.io r4.2) !! ("id" +:+ pretty out_ch +:+ "_reg") = Some packed) ∧
     (¬ (0 <= out_ch < 4) ->
        r3.1 = Raise (RuntimeError (InvalidOutputChannel out_ch)) ∧
        is_range_error r3.1 ∧ r3.2 = st) ∧
     (¬ (0 <= out_ch < 8) ->
        r4.1 = Raise (RuntimeError (InvalidOutputChannel out_ch)) ∧
        is_range_error r4.1 ∧ r4.2 = st)) ∧
  (¬ (0 <= out_ch < 4) -> ¬ returns r3.1 ∧ r3.2 = st) ∧
  (¬ (0 <= out_ch < 8) -> ¬ returns r4.1 ∧ r4.2 = st).
Proof.
  intros HN packed r3 r4. subst r3 r4.
  unfold AxisPFBReadoutV3.set_freq_int, AxisPFBReadoutV4.set_freq_int,
    AxisPFBReadoutV3.NOUT, AxisPFBReadoutV4.NOUT.
  split_and!.
  - intros Hc. subst packed. rewrite <- id_val_packs by lia. split_and!.
    + intros Ho. by destruct (wide_set_freq_int_ok N 4 f_int pfb_ch out_ch st Hc Ho) as (? & ? & _).
    + intros Ho. by destruct (wide_set_freq_int_ok N 8 f_int pfb_ch out_ch st Hc Ho) as (? & ? & _).
    + intros Ho. rewrite wide_set_freq_int_bad_output by done.
      by assert ((0 <=? pfb_ch) && (pfb_ch <? N) = true) as -> by lia.
    + intros Ho. rewrite wide_set_freq_int_bad_output by done.
      by assert ((0 <=? pfb_ch) && (pfb_ch <? N) = true) as -> by lia.
  - intros Ho. rewrite wide_set_freq_int_bad_output by done. simpl. tauto.
  - intros Ho. rewrite wide_set_freq_int_bad_output by done. simpl. tauto.
Qed.

(** Channel 37 of 64 on output 2 of the four-output readout: packet 4,
    lane 5, selection word [0x504]. *)
Lemma wide_set_freq_int_packs_and_checks_witness :
  let r := AxisPFBReadoutV3.set_freq_int 64 1000 37 2 PFBWide.initialize in
  r.1 = Return tt ∧ regs (PFBWide.io r.2) !! "id2_reg" = Some 1284.
Proof.
  intros r.
  destruct (wide_set_freq_int_packs_and_checks 64 1000 37 2 PFBWide.initialize
              ltac:(lia)) as (Hin & _).
  destruct (Hin ltac:(lia)) as (H3 & _).
  exact (H3 ltac:(lia)).
Defined.

(** ** AxisBufferDdrV1: reading the ring buffer *)

Lemma py_slice_nonneg {A} (l : list A) (lo hi : Z) :
  0 <= lo -> 0 <= hi ->
  py_slice l (Some lo) (Some hi) = drop (Z.to_nat lo) (take (Z.to_nat hi) l).
Proof.
  intros Hlo Hhi. unfold py_slice, py_index.
  assert ((lo <? 0) = false) as -> by lia.
  assert ((hi <? 0) = false) as -> by lia.
  set (n := Z.of_nat (length l)).
  assert (Htake : take (Z.to_nat (Z.min hi n)) l = take (Z.to_nat hi) l).
  { destruct (Z.le_gt_cases hi n) as [Hle|Hgt].
    - by rewrite Z.min_l.
    - rewrite Z.min_r by lia. rewrite !take_ge; [done| |]; subst n; lia. }
  rewrite Htake.
  destruct (Z.le_gt_cases lo n) as [Hle|Hgt].
  - by rewrite Z.min_l.
  - rewrite Z.min_r by lia.
    rewrite !drop_ge; [done| |]; rewrite length_take; subst n; lia.
Qed.

(** Copying the window widened to even bounds and then cutting the padding
    off again yields the window itself. *)
Lemma pad_copy_trim {A} (l : list A) (s e : Z) :
  0 <= s <= e ->
  py_slice (py_slice l (Some (s - s `mod` 2)) (Some (e + e `mod` 2)))
           (Some (s `mod` 2)) (Some (e - s + s `mod` 2))
  = py_slice l (Some s) (Some e).
Proof.
  intros Hse.
  pose proof (Z.mod_pos_bound s 2 ltac:(lia)) as Hs.
  pose proof (Z.mod_pos_bound e 2 ltac:(lia)) as He.
  assert (Ha : 0 <= s - s `mod` 2).
  { pose proof (Z.mod_le s 2 ltac:(lia) ltac:(lia)). lia. }
  rewrite !py_slice_nonneg by lia.
  rewrite take_drop_commute, take_take, drop_drop.
  f_equal; [lia|]. f_equal. lia.
Qed.

Lemma py_slice_window_length {A} (l : list A) (s e : Z) :
  0 <= s <= e -> e <= Z.of_nat (length l) ->
  Z.of_nat (length (py_slice l (Some s) (Some e))) = e - s.
Proof.
  intros Hse He. rewrite py_slice_nonneg by lia.
  rewrite length_drop, length_take. lia.
Qed.

Section DdrBuffer_facts.
Import AxisBufferDdrV1.
Variables DATA_WIDTH BURST_SIZE : Z.

Abbreviation ddr_window := (get_mem_window DATA_WIDTH BURST_SIZE).
Abbreviation ddr_get_mem_on := (get_mem_on DATA_WIDTH BURST_SIZE).
Abbreviation ddr_get_mem := (get_mem DATA_WIDTH BURST_SIZE).
Abbreviation ddr_arm := (arm DATA_WIDTH BURST_SIZE).
Abbreviation bl := (burst_len DATA_WIDTH BURST_SIZE).
Abbreviation jl := (junk_len DATA_WIDTH).

(** The bounds [get_mem] passes to the array are even. *)
Lemma padded_bounds_even (s e : Z) :
  (s - s `mod` 2) `mod` 2 = 0 ∧ (e + e `mod` 2) `mod` 2 = 0.
Proof.
  split; [|apply pad_even].
  rewrite Zminus_mod_idemp_r. by rewrite Z.sub_diag.
Qed.

(** The one access [get_mem] makes to the array: the padded range. *)
Lemma get_mem_on_run (copy : raw_copy) (nt : Z) (start : option Z) (st : state) (s e : Z) :
  ddr_window nt start = (s, e) ->
  ddr_get_mem_on copy nt start st =
    (match copy (ddr4_array st) (s - s `mod` 2) (e + e `mod` 2) with
     | Return buf_copy =>
         Return (iq_view 16
                   (py_slice buf_copy (Some (s `mod` 2)) (Some (e - s + s `mod` 2))))
     | Raise x => Raise x
     end, st).
Proof.
  intros Hw. unfold get_mem_on. rewrite Hw. unfold bind, get, lift, ret.
  by destruct (copy _ _ _).
Qed.

Lemma ddr4_copy_aligned (arr : list Z) (s e : Z) :
  ddr4_copy arr (s - s `mod` 2) (e + e `mod` 2) =
    Return (py_slice arr (Some (s - s `mod` 2)) (Some (e + e `mod` 2))).
Proof.
  unfold ddr4_copy. destruct (padded_bounds_even s e) as [-> ->]. done.
Qed.

Lemma get_mem_run (nt : Z) (start : option Z) (st : state) (s e : Z) :
  ddr_window nt start = (s, e) ->
  ddr_get_mem nt start st =
    (Return (iq_view 16
       (py_slice (py_slice (ddr4_array st) (Some (s - s `mod` 2)) (Some (e + e `mod` 2)))
                 (Some (s `mod` 2)) (Some (e - s + s `mod` 2)))), st).
Proof.
  intros Hw. unfold get_mem. rewrite (get_mem_on_run _ nt start st s e Hw).
  by rewrite ddr4_copy_aligned.
Qed.

(** What [get_mem] hands back for a window that lies in the memory. *)
Lemma get_mem_returns_window (nt : Z) (start : option Z) (st : state) (s e : Z) :
  ddr_window nt start = (s, e) ->
  0 <= s <= e ->
  e <= maxlen st ->
  exists data,
    (ddr_get_mem nt start st).1 = Return data ∧
    data = iq_view 16 (py_slice (ddr4_array st) (Some s) (Some e)) ∧
    Z.of_nat (length data) = e - s.
Proof.
  intros Hw Hse He. rewrite (get_mem_run nt start st s e Hw). cbn [fst].
  eexists; split; [reflexivity|]. rewrite pad_copy_trim by done.
  split; [done|]. rewrite iq_view_length. by apply py_slice_window_length.
Qed.

(** C8, as stated, fails for a window that reaches past the memory: on a
    memory of 100 words, two bursts of 64 words from [start = 10] ask for
    the window [[10, 138)] of 128 words, and 90 pairs come back. *)
Lemma get_mem_window_past_the_memory :
  let st := MkState mmio_init (map Z.of_nat (seq 0 100)) in
  get_mem_window 32 64 2 (Some 10) = (10, 138) ∧
  exists data, (get_mem 32 64 2 (Some 10) st).1 = Return data ∧
               Z.of_nat (length data) = 90 ∧
               Z.of_nat (length data) ≠ 138 - 10.
Proof.
  intros st. split; [reflexivity|].
  eexists. split; [vm_compute; reflexivity|]. split; [reflexivity|]. by vm_compute.
Qed.

(** C8, amended.  Let [[s, e)] be the read window.  Whatever serves the
    array access, [get_mem] makes one access, to the range
    [[s - s mod 2, e + e mod 2)], whose bounds are even and enclose the
    window, fails as that access fails, and otherwise cuts [s mod 2] words
    off the front of the copy and keeps [e - s] words at most.  The board
    serves the padded range, while it would die on the range [[s, e)] itself
    when [s] or [e] is odd.  For a window that lies in the memory
    ([0 <= s <= e <= maxlen]) the call on the board returns the views of
    exactly the words [s .. e-1]: [e - s] sample pairs, with the memory left
    as it was. *)
Theorem get_mem_pads_and_trims (nt : Z) (start : option Z) (st : state) (s e : Z) :
  ddr_window nt start = (s, e) ->
  0 <= s <= e ->
  e <= maxlen st ->
  let lo := s - s `mod` 2 in
  let hi := e + e `mod` 2 in
  lo `mod` 2 = 0 ∧ hi `mod` 2 = 0 ∧ s - 1 <= lo <= s ∧ e <= hi <= e + 1 ∧
  (forall copy : raw_copy,
     ddr_get_mem_on copy nt start st =
       (match copy (ddr4_array st) lo hi with
        | Return buf_copy =>
            Return (iq_view 16 (py_slice buf_copy (Some (s - lo)) (Some (e - lo))))
        | Raise x => Raise x
        end, st)) ∧
  ddr4_copy (ddr4_array st) lo hi = Return (py_slice (ddr4_array st) (Some lo) (Some hi)) ∧
  (s `mod` 2 ≠ 0 ∨ e `mod` 2 ≠ 0 -> ddr4_copy (ddr4_array st) s e = Raise SIGBUS) ∧
  ddr_get_mem nt start st =
    (Return (iq_view 16 (py_slice (ddr4_array st) (Some s) (Some e))), st) ∧
  Z.of_nat (length (iq_view 16 (py_slice (ddr4_array st) (Some s) (Some e)))) = e - s.
Proof.
  intros Hw Hse He lo hi.
  pose proof (Z.mod_pos_bound s 2 ltac:(lia)) as Hs.
  pose proof (pad_even e) as [Hhi Hhib]. fold hi in Hhi, Hhib.
  destruct (padded_bounds_even s e) as [Hlo _]. fold lo in Hlo.
  split_and!; try done; try lia.
  - intros copy. rewrite (get_mem_on_run copy nt start st s e Hw). fold lo hi.
    by replace (s - lo) with (s `mod` 2) by lia;
       replace (e - lo) with (e - s + s `mod` 2) by lia.
  - apply ddr4_copy_aligned.
  - intros Hodd. unfold ddr4_copy.
    destruct (Z.eqb_spec (s `mod` 2) 0), (Z.eqb_spec (e `mod` 2) 0); try done.
    by destruct Hodd.
  - rewrite (get_mem_run nt start st s e Hw). by rewrite pad_copy_trim.
  - rewrite iq_view_length. by apply py_slice_window_length.
Qed.

Lemma burst_count_exceeds (nt cap b : Z) :
  0 < b -> (nt >? cap `div` b) = true ↔ nt * b > cap.
Proof.
  intros Hb. rewrite Z.gtb_lt.
  pose proof (Z.mul_div_le cap b Hb). pose proof (Z.mul_succ_div_gt cap b Hb).
  split; nia.
Qed.

(** C9.  With a positive burst length, [arm] raises the overwrite error
    exactly when [nt] bursts do not fit the memory and [force_overwrite] is
    not set, and then nothing is written; otherwise it returns after
    writing, in this order, the burst count [nt], the write-stop and the
    write-start. *)
Theorem arm_checks_capacity (nt : Z) (force_overwrite : bool) (st : state) :
  0 < bl ->
  let r := ddr_arm nt force_overwrite st in
  (is_capacity_error r.1 ↔ nt * bl > maxlen st ∧ force_overwrite = false) ∧
  (is_capacity_error r.1 -> r.2 = st) ∧
  (¬ is_capacity_error r.1 ->
     r.1 = Return tt ∧
     writes (io r.2) =
       writes (io st) ++ [("wnburst_reg", nt); ("wstart_reg", 0); ("wstart_reg", 1)] ∧
     regs (io r.2) !! "wnburst_reg" = Some nt ∧
     regs (io r.2) !! "wstart_reg" = Some 1 ∧
     ddr4_array r.2 = ddr4_array st).
Proof.
  intros Hbl r. subst r. unfold arm, bind, get.
  assert ((bl =? 0) = false) as -> by lia.
  pose proof (burst_count_exceeds nt (maxlen st) bl Hbl) as Hiff.
  destruct ((nt >? maxlen st `div` bl) && negb force_overwrite) eqn:Hb.
  - apply andb_true_iff in Hb as [Hgt Hf].
    apply Hiff in Hgt. apply negb_true_iff in Hf.
    unfold raise. cbn [fst snd is_capacity_error]. tauto.
  - unfold wlen, wstop, wstart, setattr, modify.
    cbn [fst snd io ddr4_array is_capacity_error].
    split_and!.
    + split; [done|]. intros [Hgt ->]. apply Hiff in Hgt.
      rewrite Hgt in Hb. discriminate.
    + done.
    + intros _. split_and!; [done| |by mmio_lookup|by mmio_lookup|done].
      by rewrite !mmio_set_writes, <- !app_assoc.
Qed.

(** C10.  With a non-negative bus width the junk length is positive.
    [get_mem(nt)] reads the window [[junk_len, nt * burst_len)], while
    [get_mem(nt, start=junk_len)] reads
    [[junk_len, junk_len + nt * burst_len)]: the two windows end at
    different offsets and have different lengths, for every [nt].  When the
    windows lie in the memory, the first call returns
    [nt * burst_len - junk_len] pairs and the second [nt * burst_len]. *)
Theorem get_mem_start_changes_window (nt : Z) (st : state) :
  0 <= DATA_WIDTH ->
  0 < jl ∧
  ddr_window nt None = (jl, nt * bl) ∧
  ddr_window nt (Some jl) = (jl, jl + nt * bl) ∧
  (ddr_window nt None).2 ≠ (ddr_window nt (Some jl)).2 ∧
  nt * bl - jl ≠ (jl + nt * bl) - jl ∧
  (jl <= nt * bl -> nt * bl <= maxlen st ->
     exists data, (ddr_get_mem nt None st).1 = Return data ∧
                  Z.of_nat (length data) = nt * bl - jl) ∧
  (0 <= nt * bl -> jl + nt * bl <= maxlen st ->
     exists data, (ddr_get_mem nt (Some jl) st).1 = Return data ∧
                  Z.of_nat (length data) = nt * bl).
Proof.
  intros Hdw.
  assert (Hjl : 0 < jl).
  { unfold junk_len. pose proof (Z.div_pos (50 * DATA_WIDTH) 32 ltac:(lia) ltac:(lia)). lia. }
  split_and!; try done; cbn [get_mem_window snd]; try lia.
  - intros H1 H2.
    destruct (get_mem_returns_window nt None st jl (nt * bl) eq_refl ltac:(lia) H2)
      as (data & Hret & _ & Hlen).
    by exists data.
  - intros H1 H2.
    destruct (get_mem_returns_window nt (Some jl) st jl (jl + nt * bl) eq_refl
                ltac:(lia) H2)
      as (data & Hret & _ & Hlen).
    exists data. split; [done|lia].
Qed.

End DdrBuffer_facts.

(** A read of [[7, 50)]: one burst of 43 words starting at 7, from a memory
    whose word [i] holds [i].  The raw copy covers [[6, 50)]; a backend
    that refuses every access makes the call fail; on the board the 43
    pairs of the words 7 to 49 come back, while the range [[7, 50)] itself
    would kill the interpreter. *)
Lemma get_mem_pads_and_trims_witness :
  let st := AxisBufferDdrV1.MkState mmio_init (map Z.of_nat (seq 0 64)) in
  (AxisBufferDdrV1.get_mem_on 32 43 (fun _ _ _ => Raise SIGBUS) 1 (Some 7) st).1
    = Raise SIGBUS ∧
  AxisBufferDdrV1.ddr4_copy (AxisBufferDdrV1.ddr4_array st) 7 50 = Raise SIGBUS ∧
  (AxisBufferDdrV1.get_mem 32 43 1 (Some 7) st).1
    = Return (map (fun i => (Z.of_nat i, 0)) (seq 7 43)).
Proof.
  intros st.
  destruct (get_mem_pads_and_trims 32 43 1 (Some 7) st 7 50 eq_refl
              ltac:(lia) ltac:(vm_compute; discriminate))
    as (_ & _ & _ & _ & Hon & _ & Hdirect & Hret & _).
  split; [|split].
  - rewrite (Hon (fun _ _ _ => Raise SIGBUS)). reflexivity.
  - apply Hdirect. left. vm_compute. discriminate.
  - rewrite Hret. reflexivity.
Defined.

(** A memory of 4096 words and bursts of 2048: three bursts are refused,
    three forced bursts are programmed. *)
Lemma arm_checks_capacity_witness :
  let st := AxisBufferDdrV1.MkState mmio_init (replicate 4096 0) in
  is_capacity_error (AxisBufferDdrV1.arm 256 256 3 false st).1 ∧
  writes (AxisBufferDdrV1.io (AxisBufferDdrV1.arm 256 256 3 true st).2) =
    [("wnburst_reg", 3); ("wstart_reg", 0); ("wstart_reg", 1)].
Proof.
  intros st. split.
  - destruct (arm_checks_capacity 256 256 3 false st ltac:(vm_compute; reflexivity))
      as (Hiff & _).
    apply Hiff. split; [vm_compute; reflexivity | reflexivity].
  - destruct (arm_checks_capacity 256 256 3 true st ltac:(vm_compute; reflexivity))
      as (Hiff & _ & Hok).
    assert (Hno : ¬ is_capacity_error (AxisBufferDdrV1.arm 256 256 3 true st).1).
    { intros H. apply Hiff in H as [_ H]. discriminate H. }
    destruct (Hok Hno) as (_ & Hw & _). exact Hw.
Defined.

(** Bus width 32 and bursts of 64 words: the junk length is 51, and for two
    bursts the default window is [[51, 128)] while the window from an
    explicit [start = 51] is [[51, 179)]. *)
Lemma get_mem_start_changes_window_witness :
  AxisBufferDdrV1.get_mem_window 32 64 2 None = (51, 128) ∧
  AxisBufferDdrV1.get_mem_window 32 64 2 (Some 51) = (51, 179).
Proof.
  destruct (get_mem_start_changes_window 32 64 2
              (AxisBufferDdrV1.MkState mmio_init []) ltac:(lia))
    as (_ & H1 & H2 & _).
  split; [exact H1 | exact H2].
Defined.

(** * Further properties of the drivers *)

(** ** AxisPFBReadoutV2: the table of committed words *)

Section PFBv2_table.
Import AxisPFBReadoutV2.

Lemma v2_set_freq_int_keeps_word f_int in_ch out_ch st c w :
  ch_freqs st !! c = Some w ->
  ch_freqs (set_freq_int f_int in_ch out_ch st).2 !! c = Some w.
Proof.
  intros Hc. rewrite v2_set_freq_int_cases.
  destruct (decide (in_ch = c)) as [->|Hne].
  - rewrite Hc. destruct (decide (f_int = w)) as [->|?].
    + unfold committed; simpl. apply lookup_insert_eq.
    + by destruct (out_chs st !! c).
  - destruct (ch_freqs st !! in_ch) as [old|].
    + destruct (decide (f_int = old)).
      * unfold committed; simpl. by rewrite lookup_insert_ne.
      * by destruct (out_chs st !! in_ch).
    + unfold committed; simpl. by rewrite lookup_insert_ne.
Qed.

Lemma v2_set_freq_ints_cons f_int in_ch out_ch reqs st :
  set_freq_ints ((f_int, in_ch, out_ch) :: reqs) st =
  set_freq_ints reqs (set_freq_int f_int in_ch out_ch st).2.
Proof. reflexivity. Qed.

Lemma v2_wf_set_freq_ints reqs st : wf st -> wf (set_freq_ints reqs st).
Proof.
  revert st. induction reqs as [|[[f i] o] reqs IH]; intros st Hwf; [done|].
  rewrite v2_set_freq_ints_cons. by apply IH, v2_wf_set_freq_int.
Qed.

(** X1.  A tuning word committed to a mixing channel stays: whatever
    requests follow, accepted or refused, the channel keeps that word. *)
Theorem v2_committed_word_is_permanent (reqs : list (Z * Z * Z)) (st : state) (c w : Z) :
  ch_freqs st !! c = Some w ->
  ch_freqs (set_freq_ints reqs st) !! c = Some w.
Proof.
  revert st. induction reqs as [|[[f i] o] reqs IH]; intros st Hc; [done|].
  rewrite v2_set_freq_ints_cons. by apply IH, v2_set_freq_int_keeps_word.
Qed.

Lemma v2_committed_word_is_permanent_witness :
  ch_freqs (set_freq_ints [(9, 5, 1); (3, 2, 0); (7, 5, 3)]
              (set_freq_int 7 5 0 initialize).2) !! 5 = Some 7.
Proof.
  apply (v2_committed_word_is_permanent [(9, 5, 1); (3, 2, 0); (7, 5, 3)]
           (set_freq_int 7 5 0 initialize).2 5 7).
  reflexivity.
Defined.

(** X2.  On a block that has only been driven through [set_freq_int] since
    [initialize], a request either returns or raises the collision error
    (the lookup of the conflicting output never fails), and a refused
    request leaves the object as it was. *)
Theorem v2_request_returns_or_collides (reqs : list (Z * Z * Z)) (f_int in_ch out_ch : Z) :
  let st := set_freq_ints reqs initialize in
  let r := set_freq_int f_int in_ch out_ch st in
  (r.1 = Return tt ∨
   exists old_out, r.1 = Raise (RuntimeError (FrequencyCollision out_ch old_out in_ch)) ∧
                   out_chs st !! in_ch = Some old_out ∧ r.2 = st) ∧
  wf r.2.
Proof.
  intros st r.
  assert (Hwf : wf st) by apply v2_wf_set_freq_ints, v2_wf_initialize.
  split; [|by apply v2_wf_set_freq_int].
  subst r. rewrite v2_set_freq_int_cases.
  destruct (ch_freqs st !! in_ch) as [old|] eqn:Hold; [|by left].
  destruct (decide (f_int = old)); [by left|].
  destruct (Hwf in_ch) as [o Ho]; [by rewrite Hold|].
  rewrite Ho. right. by exists o.
Qed.

(** X3.  A request is accepted exactly when its channel holds no word yet
    or holds the requested word, whatever the output index (this readout
    makes no range check on it); an accepted request is then what the
    dictionaries return for the channel, and every other channel keeps its
    word and its output. *)
Theorem v2_accepted_request_is_recorded (f_int in_ch out_ch : Z) (st : state) :
  let r := set_freq_int f_int in_ch out_ch st in
  (r.1 = Return tt ↔ ch_freqs st !! in_ch = None ∨ ch_freqs st !! in_ch = Some f_int) ∧
  (r.1 = Return tt ->
     ch_freqs r.2 !! in_ch = Some f_int ∧
     out_chs r.2 !! in_ch = Some out_ch ∧
     forall c, c ≠ in_ch ->
       ch_freqs r.2 !! c = ch_freqs st !! c ∧ out_chs r.2 !! c = out_chs st !! c).
Proof.
  intros r. subst r. rewrite v2_set_freq_int_cases.
  assert (Hcommitted :
    ch_freqs (committed f_int in_ch out_ch st) !! in_ch = Some f_int ∧
    out_chs (committed f_int in_ch out_ch st) !! in_ch = Some out_ch ∧
    forall c, c ≠ in_ch ->
      ch_freqs (committed f_int in_ch out_ch st) !! c = ch_freqs st !! c ∧
      out_chs (committed f_int in_ch out_ch st) !! c = out_chs st !! c).
  { unfold committed; simpl. rewrite !lookup_insert_eq. split_and!; [done..|].
    intros c Hc. by rewrite !lookup_insert_ne. }
  destruct (ch_freqs st !! in_ch) as [old|] eqn:Hold.
  - destruct (decide (f_int = old)) as [->|Hne].
    + split; [|done]. split; [by right|done].
    + split.
      * split.
        -- by destruct (out_chs st !! in_ch).
        -- intros [?|[=]]; [done|]. by subst.
      * by destruct (out_chs st !! in_ch).
  - split; [|done]. split; [by left|done].
Qed.

(** X4.  Repeating an accepted request is accepted again and changes
    neither dictionary nor the value of any register. *)
Theorem v2_repeated_request_is_idempotent (f_int in_ch out_ch : Z) (st : state) :
  let r1 := set_freq_int f_int in_ch out_ch st in
  let r2 := set_freq_int f_int in_ch out_ch r1.2 in
  r1.1 = Return tt ->
  r2.1 = Return tt ∧
  ch_freqs r2.2 = ch_freqs r1.2 ∧
  out_chs r2.2 = out_chs r1.2 ∧
  regs (io r2.2) = regs (io r1.2).
Proof.
  intros r1 r2 H1. subst r2.
  assert (Hst : r1.2 = committed f_int in_ch out_ch st).
  { subst r1. rewrite v2_set_freq_int_cases in *.
    destruct (ch_freqs st !! in_ch); [|done].
    destruct (decide _); [done|]. by destruct (out_chs st !! in_ch). }
  rewrite Hst, v2_set_freq_int_cases.
  assert (ch_freqs (committed f_int in_ch out_ch st) !! in_ch = Some f_int) as ->
    by (unfold committed; simpl; apply lookup_insert_eq).
  destruct (decide (f_int = f_int)); [|done].
  unfold committed; simpl. split_and!; [done|by rewrite insert_insert_eq..|].
  apply map_eq. intros name.
  destruct (decide (name = "freq" +:+ pretty in_ch +:+ "_reg")) as [->|Hf].
  { by rewrite !lookup_insert_eq. }
  rewrite (lookup_insert_ne _ ("freq" +:+ pretty in_ch +:+ "_reg")) by done.
  destruct (decide (name = "ch" +:+ pretty out_ch +:+ "sel_reg")) as [->|Hc].
  { rewrite lookup_insert_eq. rewrite lookup_insert_ne by (apply not_eq_sym, chsel_ne_freq).
    by rewrite lookup_insert_eq. }
  by rewrite !lookup_insert_ne.
Qed.

Lemma v2_repeated_request_is_idempotent_witness :
  let r1 := set_freq_int 7 5 0 initialize in
  let r2 := set_freq_int 7 5 0 r1.2 in
  r2.1 = Return tt ∧ ch_freqs r2.2 = ch_freqs r1.2 ∧ out_chs r2.2 = out_chs r1.2 ∧
  regs (io r2.2) = regs (io r1.2).
Proof.
  apply (v2_repeated_request_is_idempotent 7 5 0 initialize). reflexivity.
Defined.

End PFBv2_table.

(** ** Filter-bank geometry *)


Lemma np_round_comp (x y : Q) : (x == y)%Q -> np_round x = np_round y.
Proof.
  intros Hxy. unfold np_round. rewrite (Qfloor_comp x y Hxy).
  assert ((x - inject_Z (Qfloor y) ?= 1 # 2) = (y - inject_Z (Qfloor y) ?= 1 # 2))%Q as ->;
    [|done].
  apply Qcompare_comp; [by rewrite Hxy|done].
Qed.

(** X5.  The step count is rounded from the float quotient, not from the
    exact one, and the residual can leave the quarter band.  At
    [f_dds = 19.2] and a folded frequency of 312.0 the float quotient is the
    tie 32.5: the code takes 32 steps and a residual of 4.800000000000011,
    above [f_dds/4 = 4.8]; the exact quotient of the same two floats is
    above 32.5, and rounds to 33 with a residual inside the quarter band. *)
Theorem float_quotient_tie_leaves_quarter_band :
  let f_dds := F64.lit 192 10 in
  let folded := F64.of_Z 312 in
  let residual := SpecFloat.S754_finite false 5404319552844608 (-50) in
  F64.div folded (F64.div f_dds (F64.of_Z 2)) = F64.lit 325 10 ∧
  steps_f64 f_dds folded = Return (32, residual) ∧
  SpecFloat.SFltb (F64.div f_dds (F64.of_Z 4)) residual = true ∧
  (F64.to_Q f_dds / 4 < F64.to_Q residual)%Q ∧
  f_steps (F64.to_Q f_dds) (F64.to_Q folded) = 33 ∧
  (Qabs (f_dds_residual (F64.to_Q f_dds) (F64.to_Q folded)) <= F64.to_Q f_dds / 4)%Q.
Proof.
  intros f_dds folded residual. split_and!; by vm_compute.
Qed.

(** X6.  Channel selection is not periodic in the number of channels.
    With [fs = 2457.6], [f_dds = 76.8] and [N = 64] channels, the requests
    57.59999999999991 and 2515.2 are 64 channel spacings apart (their float
    difference is 2457.6, which is 64 times the float 38.4) and both lie in
    odd zones, yet they take 1 and 66 steps and are sent to the channels 33
    and 34 of a wide readout. *)
Theorem channel_selection_is_not_periodic :
  let fs := F64.lit 24576 10 in
  let f_dds := F64.lit 768 10 in
  let low := SpecFloat.S754_finite false 8106479329266880 (-47) in
  let high := F64.lit 25152 10 in
  F64.sub high low = F64.mul (F64.of_Z 64) (F64.div f_dds (F64.of_Z 2)) ∧
  fold_f64 fs low = Return low ∧ fold_f64 fs high = Return high ∧
  (exists r, steps_f64 f_dds low = Return (1, r)) ∧
  (exists r, steps_f64 f_dds high = Return (66, r)) ∧
  (forall out_ch st,
     PFBWide.set_freq 64 4 soc_plain fs f_dds low out_ch None st =
       PFBWide.set_freq_int 64 4 19 33 out_ch st ∧
     PFBWide.set_freq 64 4 soc_plain fs f_dds high out_ch None st =
       PFBWide.set_freq_int 64 4 (-20) 34 out_ch st).
Proof.
  intros fs f_dds low high.
  assert (Hl : fold_f64 fs low = Return low) by (by vm_compute).
  assert (Hh : fold_f64 fs high = Return high) by (by vm_compute).
  assert (Hsl : steps_f64 f_dds low =
                Return (1, SpecFloat.S754_finite false 5404319552844570 (-48)))
    by (by vm_compute).
  assert (Hsh : steps_f64 f_dds high =
                Return (66, SpecFloat.S754_finite true 5404319552844672 (-48)))
    by (by vm_compute).
  split_and!; [by vm_compute|done|done|by eexists|by eexists|].
  intros out_ch st. unfold PFBWide.set_freq, bind, lift.
  change (ro_freq_of soc_plain low None) with low.
  change (ro_freq_of soc_plain high None) with high.
  rewrite Hl, Hh, Hsl, Hsh. split; reflexivity.
Qed.

(** X27.  A frequency request that fails in the float arithmetic writes
    nothing: when the Nyquist fold or the step count raises, [set_freq] of
    the V2 and of the V3 / V4 readouts raises the same error and leaves the
    object as it was.  The fold raises [ZeroDivisionError] for a zero
    sample rate and refuses a NaN and an infinite frequency (the floor
    division is a NaN, which [int] rejects); the step count raises
    [ZeroDivisionError] for a zero DDS range, also for the smallest positive
    float, whose half rounds to zero, and [OverflowError] when the float
    quotient overflows, as for [f_dds = 2e-308] and the frequency 1e308. *)
Theorem set_freq_failure_writes_nothing
    (soc : soc_iface) (fs f_dds f : SpecFloat.spec_float) (gen_ch : option Z)
    (out_ch N NOUT : Z) (st2 : AxisPFBReadoutV2.state) (st : PFBWide.state) (e : exn) :
  (fold_f64 fs (ro_freq_of soc f gen_ch) = Raise e ∨
   exists folded, fold_f64 fs (ro_freq_of soc f gen_ch) = Return folded ∧
                  steps_f64 f_dds folded = Raise e) ->
  AxisPFBReadoutV2.set_freq soc fs f_dds f out_ch gen_ch st2 = (Raise e, st2) ∧
  PFBWide.set_freq N NOUT soc fs f_dds f out_ch gen_ch st = (Raise e, st) ∧
  (forall s x, fold_f64 (SpecFloat.S754_zero s) x = Raise ZeroDivisionError) ∧
  fold_f64 (F64.of_Z 100) SpecFloat.S754_nan = Raise FloatNaNToInt ∧
  fold_f64 (F64.of_Z 100) (SpecFloat.S754_infinity false) = Raise FloatNaNToInt ∧
  (forall s x, steps_f64 (SpecFloat.S754_zero s) x = Raise ZeroDivisionError) ∧
  steps_f64 (SpecFloat.S754_finite false 1 (-1074)) (F64.of_Z 60)
    = Raise ZeroDivisionError ∧
  steps_f64 (SpecFloat.S754_finite false 4048045066146212 (-1074)) (F64.of_Z (10 ^ 308))
    = Raise FloatInfToInt.
Proof.
  intros Hfail.
  split_and!;
    [| |by intros [] x|by vm_compute|by vm_compute|by intros [] x
     |by vm_compute|by vm_compute].
  - unfold AxisPFBReadoutV2.set_freq, bind, lift.
    destruct Hfail as [-> | (folded & -> & ->)]; reflexivity.
  - unfold PFBWide.set_freq, bind, lift.
    destruct Hfail as [-> | (folded & -> & ->)]; reflexivity.
Qed.

(** A request for a NaN frequency is refused by both readouts. *)
Lemma set_freq_failure_writes_nothing_witness :
  AxisPFBReadoutV2.set_freq soc_plain (F64.of_Z 100) (F64.of_Z 100) SpecFloat.S754_nan 0
      None AxisPFBReadoutV2.initialize
    = (Raise FloatNaNToInt, AxisPFBReadoutV2.initialize) ∧
  PFBWide.set_freq 64 4 soc_plain (F64.of_Z 100) (F64.of_Z 100) SpecFloat.S754_nan 0
      None PFBWide.initialize
    = (Raise FloatNaNToInt, PFBWide.initialize).
Proof.
  destruct (set_freq_failure_writes_nothing soc_plain (F64.of_Z 100) (F64.of_Z 100)
              SpecFloat.S754_nan None 0 64 4 AxisPFBReadoutV2.initialize
              PFBWide.initialize FloatNaNToInt
              ltac:(left; vm_compute; reflexivity)) as (H2 & Hw & _).
  split; [exact H2 | exact Hw].
Defined.



(** ** AxisPFBReadoutV3 / V4: independent outputs *)

Lemma string_length_app (s t : string) :
  String.length (s +:+ t) = (String.length s + String.length t)%nat.
Proof. induction s as [|a s IH]; simpl; [done|]. by rewrite IH. Qed.

Lemma string_app_inv_r (s1 s2 t : string) : s1 +:+ t = s2 +:+ t -> s1 = s2.
Proof.
  revert s2. induction s1 as [|a s1 IH]; intros [|b s2] H.
  - done.
  - apply (f_equal String.length) in H. rewrite !string_length_app in H. simpl in H. lia.
  - apply (f_equal String.length) in H. rewrite !string_length_app in H. simpl in H. lia.
  - change (String a (s1 +:+ t) = String b (s2 +:+ t)) in H.
    injection H as -> H. f_equal. by apply IH.
Qed.

(** Register names built from different indices are different. *)
Lemma reg_name_inj (prefix suffix : string) (a b : Z) :
  prefix +:+ pretty a +:+ suffix = prefix +:+ pretty b +:+ suffix -> a = b.
Proof.
  intros H. apply (inj (String.app prefix)) in H.
  apply string_app_inv_r in H. by apply (inj pretty) in H.
Qed.

Lemma wide_set_freq_int_frame (N NOUT f_int pfb_ch out_ch : Z) (st : PFBWide.state) name :
  name ≠ "id" +:+ pretty out_ch +:+ "_reg" ->
  name ≠ "freq" +:+ pretty out_ch +:+ "_reg" ->
  name ≠ "phase" +:+ pretty out_ch +:+ "_reg" ->
  regs (PFBWide.io (PFBWide.set_freq_int N NOUT f_int pfb_ch out_ch st).2) !! name
  = regs (PFBWide.io st) !! name.
Proof.
  intros H1 H2 H3. unfold PFBWide.set_freq_int.
  destruct ((0 <=? pfb_ch) && (pfb_ch <? N)); [|done].
  destruct ((0 <=? out_ch) && (out_ch <? NOUT)); [|done].
  unfold bind, PFBWide.setattr, modify. cbn [fst snd PFBWide.io].
  by rewrite !mmio_set_lookup_ne.
Qed.

Lemma wide_other_output_untouched (N NOUT f_int pfb_ch out_ch other : Z) (st : PFBWide.state) :
  other ≠ out_ch ->
  let r := PFBWide.set_freq_int N NOUT f_int pfb_ch out_ch st in
  regs (PFBWide.io r.2) !! ("id" +:+ pretty other +:+ "_reg")
    = regs (PFBWide.io st) !! ("id" +:+ pretty other +:+ "_reg") ∧
  regs (PFBWide.io r.2) !! ("freq" +:+ pretty other +:+ "_reg")
    = regs (PFBWide.io st) !! ("freq" +:+ pretty other +:+ "_reg") ∧
  regs (PFBWide.io r.2) !! ("phase" +:+ pretty other +:+ "_reg")
    = regs (PFBWide.io st) !! ("phase" +:+ pretty other +:+ "_reg").
Proof.
  intros Hne r. subst r.
  split_and!; apply wide_set_freq_int_frame;
    first [ by (simpl; discriminate)
          | intros H; by apply reg_name_inj in H ].
Qed.

(** X8.  On the V3 / V4 readouts a frequency request for an output in range
    lands whatever was set before: when the Nyquist fold returns, the float
    [f_dds/2] is not zero and the float quotient is finite, [set_freq]
    returns, and the output's registers hold the selection word of the
    channel [(N div 2 + f_steps) mod N], which is in [0, N), the tuning word
    of the float residual and a zero phase. *)
Theorem wide_set_freq_always_lands
    (N NOUT : Z) (soc : soc_iface) (fs f_dds f folded : SpecFloat.spec_float)
    (gen_ch : option Z) (out_ch : Z) (st : PFBWide.state) :
  let half_dds := F64.div f_dds (F64.of_Z 2) in
  let quotient := F64.div folded half_dds in
  let steps := np_round (F64.to_Q quotient) in
  let residual := F64.sub folded (F64.mul (F64.of_Z steps) half_dds) in
  fold_f64 fs (ro_freq_of soc f gen_ch) = Return folded ->
  F64.is_zero half_dds = false -> F64.is_finite quotient = true ->
  0 < N -> 0 <= out_ch < NOUT ->
  let ch := pfb_channel (N `div` 2) N steps in
  let r := PFBWide.set_freq N NOUT soc fs f_dds f out_ch gen_ch st in
  0 <= ch < N ∧
  r.1 = Return tt ∧
  regs (PFBWide.io r.2) !! ("id" +:+ pretty out_ch +:+ "_reg") = Some (PFBWide.id_val ch) ∧
  regs (PFBWide.io r.2) !! ("freq" +:+ pretty out_ch +:+ "_reg")
    = Some (freq2int soc residual) ∧
  regs (PFBWide.io r.2) !! ("phase" +:+ pretty out_ch +:+ "_reg") = Some 0.
Proof.
  intros half_dds quotient steps residual Hfold Hz Hfin HN Hout ch r.
  assert (Hch : 0 <= ch < N) by (by apply pfb_channel_range).
  split; [done|]. subst r. unfold PFBWide.set_freq, bind, lift.
  rewrite Hfold, (steps_f64_run f_dds folded Hz Hfin).
  assert ((N =? 0) = false) as -> by lia.
  apply (wide_set_freq_int_ok N NOUT _ ch out_ch st Hch Hout).
Qed.

(** [fs = 2457.6], [f_dds = 76.8], 64 channels, a request for 2515.2 MHz on
    output 2: the float quotient is the tie 65.5, 66 steps, channel 34,
    selection word [(2 << 8) + 4 = 516]. *)
Lemma wide_set_freq_always_lands_witness :
  let r := PFBWide.set_freq 64 4 soc_plain (F64.lit 24576 10) (F64.lit 768 10)
             (F64.lit 25152 10) 2 None PFBWide.initialize in
  r.1 = Return tt ∧ regs (PFBWide.io r.2) !! "id2_reg" = Some 516.
Proof.
  intros r.
  destruct (wide_set_freq_always_lands 64 4 soc_plain (F64.lit 24576 10) (F64.lit 768 10)
              (F64.lit 25152 10) (F64.lit 25152 10) None 2 PFBWide.initialize
              ltac:(vm_compute; reflexivity) ltac:(vm_compute; reflexivity)
              ltac:(vm_compute; reflexivity) ltac:(lia) ltac:(lia))
    as (_ & Hret & Hid & _).
  split; [exact Hret | exact Hid].
Defined.

(** X9.  Outputs do not interfere: a call for one output, accepted or
    refused, leaves the selection, frequency and phase registers of every
    other output as they were. *)
Theorem wide_outputs_are_independent
    (N NOUT f_int pfb_ch out_ch other : Z) (st : PFBWide.state) :
  other ≠ out_ch ->
  let r := PFBWide.set_freq_int N NOUT f_int pfb_ch out_ch st in
  regs (PFBWide.io r.2) !! ("id" +:+ pretty other +:+ "_reg")
    = regs (PFBWide.io st) !! ("id" +:+ pretty other +:+ "_reg") ∧
  regs (PFBWide.io r.2) !! ("freq" +:+ pretty other +:+ "_reg")
    = regs (PFBWide.io st) !! ("freq" +:+ pretty other +:+ "_reg") ∧
  regs (PFBWide.io r.2) !! ("phase" +:+ pretty other +:+ "_reg")
    = regs (PFBWide.io st) !! ("phase" +:+ pretty other +:+ "_reg").
Proof.
  intros Hne r. subst r.
  assert (Hid : "id" +:+ pretty other +:+ "_reg" ≠ "id" +:+ pretty out_ch +:+ "_reg")
    by (intros H; by apply reg_name_inj in H).
  assert (Hfreq : "freq" +:+ pretty other +:+ "_reg" ≠ "freq" +:+ pretty out_ch +:+ "_reg")
    by (intros H; by apply reg_name_inj in H).
  assert (Hphase : "phase" +:+ pretty other +:+ "_reg" ≠ "phase" +:+ pretty out_ch +:+ "_reg")
    by (intros H; by apply reg_name_inj in H).
  split_and!; apply wide_set_freq_int_frame; first [done | by (simpl; discriminate)].
Qed.

Lemma wide_outputs_are_independent_witness :
  let st := (PFBWide.set_freq_int 64 4 1000 37 2 PFBWide.initialize).2 in
  let r := PFBWide.set_freq_int 64 4 2000 12 3 st in
  regs (PFBWide.io r.2) !! "freq2_reg" = Some 1000.
Proof.
  intros st r.
  destruct (wide_outputs_are_independent 64 4 2000 12 3 2 st ltac:(lia)) as (_ & H & _).
  exact H.
Defined.

(** X10.  Unlike the V2 readout, two outputs may take the same mixing
    channel with different tuning words: both requests are accepted, both
    outputs select the channel, and each keeps its own word. *)
Theorem wide_fan_out_with_different_words
    (N NOUT w1 w2 pfb_ch out1 out2 : Z) (st : PFBWide.state) :
  0 <= pfb_ch < N -> 0 <= out1 < NOUT -> 0 <= out2 < NOUT -> out1 ≠ out2 ->
  let r1 := PFBWide.set_freq_int N NOUT w1 pfb_ch out1 st in
  let r2 := PFBWide.set_freq_int N NOUT w2 pfb_ch out2 r1.2 in
  r1.1 = Return tt ∧ r2.1 = Return tt ∧
  regs (PFBWide.io r2.2) !! ("id" +:+ pretty out1 +:+ "_reg") = Some (PFBWide.id_val pfb_ch) ∧
  regs (PFBWide.io r2.2) !! ("id" +:+ pretty out2 +:+ "_reg") = Some (PFBWide.id_val pfb_ch) ∧
  regs (PFBWide.io r2.2) !! ("freq" +:+ pretty out1 +:+ "_reg") = Some w1 ∧
  regs (PFBWide.io r2.2) !! ("freq" +:+ pretty out2 +:+ "_reg") = Some w2.
Proof.
  intros Hc H1 H2 Hne r1 r2.
  destruct (wide_set_freq_int_ok N NOUT w1 pfb_ch out1 st Hc H1) as (Hr1 & Hid1 & Hf1 & _).
  destruct (wide_set_freq_int_ok N NOUT w2 pfb_ch out2 r1.2 Hc H2) as (Hr2 & Hid2 & Hf2 & _).
  destruct (wide_other_output_untouched N NOUT w2 pfb_ch out2 out1 r1.2 Hne)
    as (Hkeep_id & Hkeep_f & _).
  subst r2. split_and!; [done|done| |done| |done].
  - by rewrite Hkeep_id.
  - by rewrite Hkeep_f.
Qed.

Lemma wide_fan_out_with_different_words_witness :
  let r1 := PFBWide.set_freq_int 64 4 1000 37 0 PFBWide.initialize in
  let r2 := PFBWide.set_freq_int 64 4 2000 37 1 r1.2 in
  r2.1 = Return tt ∧
  regs (PFBWide.io r2.2) !! "freq0_reg" = Some 1000 ∧
  regs (PFBWide.io r2.2) !! "freq1_reg" = Some 2000.
Proof.
  intros r1 r2.
  destruct (wide_fan_out_with_different_words 64 4 1000 2000 37 0 1 PFBWide.initialize
              ltac:(lia) ltac:(lia) ltac:(lia) ltac:(lia))
    as (_ & Hr2 & _ & _ & Hf1 & Hf2).
  split_and!; [exact Hr2 | exact Hf1 | exact Hf2].
Defined.

(** ** Output mode of the V2 filter-bank readout *)

(** X11.  The output mode of [AxisPFBReadoutV2] is write-once.  The first
    [set_out] records its argument before the mode code is looked up, so the
    mode is recorded even when the name is unknown and the call fails with
    the key error; from then on a call with any other mode is refused with
    the mode conflict and changes nothing, while the recorded mode itself is
    answered as the first time. *)
Theorem v2_output_mode_is_write_once (sel other : string) (st : AxisPFBReadoutV2.state) :
  let r := AxisPFBReadoutV2.set_out sel (None, st) in
  r.2.1 = Some sel ∧
  (AxisPFBReadoutV2.outsel_codes !! sel = None ->
     r.1 = Fail (KeyErrorStr sel) ∧ r.2.2 = st) ∧
  (forall code, AxisPFBReadoutV2.outsel_codes !! sel = Some code ->
     r.1 = Ok tt ∧
     regs (AxisPFBReadoutV2.io r.2.2) !! "outsel_reg" = Some code) ∧
  (other ≠ sel ->
     AxisPFBReadoutV2.set_out other r.2 = (Fail (OutputModeConflict other sel), r.2)) ∧
  (AxisPFBReadoutV2.set_out sel r.2).1 = r.1.
Proof.
  intros r. subst r. unfold AxisPFBReadoutV2.set_out.
  destruct (AxisPFBReadoutV2.outsel_codes !! sel) as [code|] eqn:Hsel; cbn [fst snd].
  - split_and!; [done|done| | |].
    + intros ? [= <-]. split; [done|]. cbn [AxisPFBReadoutV2.io]. apply mmio_set_lookup.
    + intros Hne. apply String.eqb_neq in Hne. by rewrite Hne.
    + by rewrite String.eqb_refl.
  - split_and!; [done|done|done| |].
    + intros Hne. apply String.eqb_neq in Hne. by rewrite Hne.
    + by rewrite String.eqb_refl.
Qed.

(** A misspelt mode on a fresh block: the call fails, and the valid mode
    that follows is refused. *)
Example v2_misspelt_mode_locks_the_block :
  let r := AxisPFBReadoutV2.set_out "prodct" (None, AxisPFBReadoutV2.initialize) in
  r.1 = Fail (KeyErrorStr "prodct") ∧
  (AxisPFBReadoutV2.set_out "product" r.2).1 = Fail (OutputModeConflict "product" "prodct").
Proof. by vm_compute. Qed.

(** ** AxisReadoutV2: the single-channel readout *)

(** X12.  [AxisReadoutV2.set_freq] with a DDS range that is not zero
    encodes the float remainder [ro_freq % f_dds].  When the tuning word fits
    64 bits the call writes it to [freq_reg] and then pulses [we_reg] to 1
    and back to 0, in this order; otherwise it fails on the conversion and
    writes nothing.  With a zero DDS range the remainder raises and nothing
    is written.  The remainder takes the sign of [f_dds] and is rounded:
    [312.5 % 100.0] is 12.5, while [(-1e-18) % 100.0] is 100.0, the range
    itself. *)
Theorem readout_v2_set_freq_reduces
    (soc : soc_iface) (f_dds f : SpecFloat.spec_float) (gen_ch : option Z) (io : mmio) :
  F64.is_zero f_dds = false ->
  let ro_freq := ro_freq_of soc f gen_ch in
  let reduced := F64.rem ro_freq f_dds in
  let word := freq2int soc reduced in
  let r := AxisReadoutV2.set_freq soc f_dds f gen_ch io in
  (- 2 ^ 63 <= word < 2 ^ 63 ->
     r.1 = Ok tt ∧
     regs r.2 !! "freq_reg" = Some word ∧
     regs r.2 !! "we_reg" = Some 0 ∧
     writes r.2 = writes io ++ [("freq_reg", word); ("we_reg", 1); ("we_reg", 0)]) ∧
  (¬ (- 2 ^ 63 <= word < 2 ^ 63) -> r = (Fail OverflowError, io)) ∧
  (forall z, F64.is_zero z = true ->
     AxisReadoutV2.set_freq soc z f gen_ch io = (Fail (Exn ZeroDivisionError), io)) ∧
  F64.rem (F64.lit 3125 10) (F64.of_Z 100) = F64.lit 125 10 ∧
  F64.rem (F64.lit (-1) (10 ^ 18)) (F64.of_Z 100) = F64.of_Z 100.
Proof.
  intros Hnz ro_freq reduced word r.
  subst r. unfold AxisReadoutV2.set_freq. rewrite Hnz.
  fold ro_freq. fold reduced. fold word.
  unfold AxisReadoutV2.set_freq_int, np_int64. split_and!.
  - intros Hw. assert ((- 2 ^ 63 <=? word) && (word <? 2 ^ 63) = true) as -> by lia.
    cbn [fst snd]. unfold AxisReadoutV2.update. split_and!; [done| | |].
    + by mmio_lookup.
    + by mmio_lookup.
    + by rewrite !mmio_set_writes, <- !app_assoc.
  - intros Hw. by assert ((- 2 ^ 63 <=? word) && (word <? 2 ^ 63) = false) as -> by lia.
  - by intros z ->.
  - by vm_compute.
  - by vm_compute.
Qed.

(** A request of 312.5 MHz with a DDS range of 100 MHz is encoded as
    12.5 MHz, word 12 on the plain board. *)
Lemma readout_v2_set_freq_reduces_witness :
  regs (AxisReadoutV2.set_freq soc_plain (F64.of_Z 100) (F64.lit 3125 10) None
          AxisReadoutV2.init).2 !! "freq_reg" = Some 12.
Proof.
  destruct (readout_v2_set_freq_reduces soc_plain (F64.of_Z 100) (F64.lit 3125 10) None
              AxisReadoutV2.init ltac:(vm_compute; reflexivity))
    as (Hok & _).
  destruct (Hok ltac:(vm_compute; split; [discriminate|reflexivity])) as (_ & Hreg & _).
  exact Hreg.
Defined.

(** ** AxisAvgBuffer: combined configuration, arming and the send flag *)

Section AvgBuffer_more.
Import AxisAvgBuffer.
Variables N_AVG N_BUF switch_ch : Z.
Variables dma_avg dma_buf : dma_engine.

Ltac run_avg :=
  unfold config, config_avg, config_buf, enable, enable_avg, enable_buf,
    disable_avg, disable_buf, setattr, bind, modify, raise, ret;
  cbn [fst snd io].

(** X13.  The combined [config] is not atomic.  When the length is refused
    for the decimated buffer the call raises, but the averaging window has
    already been rewritten and both captures have been disabled; only the
    decimated window is left as it was.  When the length is accepted both
    units hold the same window and both are disabled. *)
Theorem config_writes_avg_window_before_refusal (address len : Z) (st : state) :
  let r := config N_BUF address len st in
  regs (io r.2) !! "avg_addr_reg" = Some address ∧
  regs (io r.2) !! "avg_len_reg" = Some len ∧
  regs (io r.2) !! "avg_start_reg" = Some 0 ∧
  regs (io r.2) !! "buf_start_reg" = Some 0 ∧
  (len >= buf_maxlen N_BUF ->
     r.1 = Raise (RuntimeError (LengthTooLong len (buf_maxlen N_BUF))) ∧
     regs (io r.2) !! "buf_addr_reg" = regs (io st) !! "buf_addr_reg" ∧
     regs (io r.2) !! "buf_len_reg" = regs (io st) !! "buf_len_reg") ∧
  (len < buf_maxlen N_BUF ->
     r.1 = Return tt ∧
     regs (io r.2) !! "buf_addr_reg" = Some address ∧
     regs (io r.2) !! "buf_len_reg" = Some len).
Proof.
  intros r. subst r.
  destruct (Z_lt_ge_dec len (buf_maxlen N_BUF)) as [Hlt|Hge].
  - run_avg. assert ((len >=? buf_maxlen N_BUF) = false) as -> by lia.
    cbn [fst snd io].
    split_and!;
      first [ by mmio_lookup | by (intros ?; lia) | intros _; split_and!; by mmio_lookup ].
  - run_avg. assert ((len >=? buf_maxlen N_BUF) = true) as -> by lia.
    cbn [fst snd io].
    split_and!;
      first [ by mmio_lookup | by (intros ?; lia) | intros _; split_and!; by mmio_lookup ].
Qed.

Lemma config_run (address len : Z) (st : state) :
  len < buf_maxlen N_BUF ->
  config N_BUF address len st =
    (Return tt,
     MkState (mmio_set "buf_len_reg" len
                (mmio_set "buf_addr_reg" address
                   (mmio_set "buf_start_reg" 0
                      (mmio_set "avg_len_reg" len
                         (mmio_set "avg_addr_reg" address
                            (mmio_set "avg_start_reg" 0 (io st)))))))
             (avg_buff st) (buf_buff st) (switch_avg st) (switch_buf st)).
Proof.
  intros Hlen. run_avg. by assert ((len >=? buf_maxlen N_BUF) = false) as -> by lia.
Qed.

Lemma enable_run (st : state) :
  enable st =
    (Return tt,
     MkState (mmio_set "buf_start_reg" 1 (mmio_set "avg_start_reg" 1 (io st)))
             (avg_buff st) (buf_buff st) (switch_avg st) (switch_buf st)).
Proof. reflexivity. Qed.

(** X14.  Arming and configuring compose as a state machine: [enable] after
    an accepted [config] starts both captures and keeps both windows, and a
    further accepted [config] stops both captures again. *)
Theorem config_enable_config (a1 l1 a2 l2 : Z) (st : state) :
  l1 < buf_maxlen N_BUF -> l2 < buf_maxlen N_BUF ->
  let armed := (config N_BUF a1 l1;; enable) st in
  let again := config N_BUF a2 l2 armed.2 in
  armed.1 = Return tt ∧
  regs (io armed.2) !! "avg_start_reg" = Some 1 ∧
  regs (io armed.2) !! "buf_start_reg" = Some 1 ∧
  regs (io armed.2) !! "avg_len_reg" = Some l1 ∧
  regs (io armed.2) !! "buf_len_reg" = Some l1 ∧
  regs (io armed.2) !! "avg_addr_reg" = Some a1 ∧
  regs (io armed.2) !! "buf_addr_reg" = Some a1 ∧
  again.1 = Return tt ∧
  regs (io again.2) !! "avg_start_reg" = Some 0 ∧
  regs (io again.2) !! "buf_start_reg" = Some 0 ∧
  regs (io again.2) !! "avg_len_reg" = Some l2 ∧
  regs (io again.2) !! "buf_len_reg" = Some l2.
Proof.
  intros H1 H2 armed again.
  assert (Harmed : armed = enable (config N_BUF a1 l1 st).2).
  { subst armed. unfold bind. by rewrite (config_run a1 l1 st H1). }
  subst again. rewrite Harmed. clear Harmed armed.
  rewrite (config_run a1 l1 st H1), enable_run. cbn [fst snd].
  rewrite config_run by done.
  cbn [fst snd io]. split_and!; by mmio_lookup.
Qed.

(** X15.  A transfer touches only the read-out side.  [transfer_avg] leaves
    every register other than [avg_dr_addr_reg], [avg_dr_len_reg] and
    [avg_dr_start_reg] as it was, together with the decimated buffer and its
    switch; [transfer_buf] likewise for its three registers, the averaging
    buffer and its switch.  A transfer refused for its length changes
    nothing at all. *)
Theorem transfer_touches_only_readout_side (address len : Z) (st : state) (name : string) :
  let ra := transfer_avg N_AVG switch_ch dma_avg address len st in
  let rb := transfer_buf N_BUF switch_ch dma_buf address len st in
  (name ≠ "avg_dr_addr_reg" -> name ≠ "avg_dr_len_reg" -> name ≠ "avg_dr_start_reg" ->
     regs (io ra.2) !! name = regs (io st) !! name) ∧
  buf_buff ra.2 = buf_buff st ∧ switch_buf ra.2 = switch_buf st ∧
  (len >= avg_maxlen N_AVG -> ra.2 = st) ∧
  (name ≠ "buf_dr_addr_reg" -> name ≠ "buf_dr_len_reg" -> name ≠ "buf_dr_start_reg" ->
     regs (io rb.2) !! name = regs (io st) !! name) ∧
  avg_buff rb.2 = avg_buff st ∧ switch_avg rb.2 = switch_avg st ∧
  (len >= buf_maxlen N_BUF -> rb.2 = st).
Proof.
  intros ra rb.
  assert (Ha : (name ≠ "avg_dr_addr_reg" -> name ≠ "avg_dr_len_reg" ->
                name ≠ "avg_dr_start_reg" ->
                regs (io ra.2) !! name = regs (io st) !! name) ∧
               buf_buff ra.2 = buf_buff st ∧ switch_buf ra.2 = switch_buf st ∧
               (len >= avg_maxlen N_AVG -> ra.2 = st)).
  { subst ra. destruct (Z_lt_ge_dec len (avg_maxlen N_AVG)) as [Hlt|Hge].
    - rewrite transfer_avg_run by done. cbn [fst snd io buf_buff switch_buf].
      split_and!; [|done|done|lia].
      intros H1 H2 H3. by rewrite !mmio_set_lookup_ne.
    - by rewrite transfer_avg_too_long by done. }
  assert (Hb : (name ≠ "buf_dr_addr_reg" -> name ≠ "buf_dr_len_reg" ->
                name ≠ "buf_dr_start_reg" ->
                regs (io rb.2) !! name = regs (io st) !! name) ∧
               avg_buff rb.2 = avg_buff st ∧ switch_avg rb.2 = switch_avg st ∧
               (len >= buf_maxlen N_BUF -> rb.2 = st)).
  { subst rb. destruct (Z_lt_ge_dec len (buf_maxlen N_BUF)) as [Hlt|Hge].
    - rewrite transfer_buf_run by done.
      destruct (_ =? _); cbn [fst snd io avg_buff switch_avg];
        (split_and!; [|done|done|lia]);
        intros H1 H2 H3; by rewrite !mmio_set_lookup_ne.
    - by rewrite transfer_buf_too_long by done. }
  tauto.
Qed.

(** X16.  After a transfer that reached the DMA, [transfer_avg] has cleared
    its send flag whatever the DMA reported, while [transfer_buf] clears its
    flag only when the byte count agrees: after a short transfer
    [buf_dr_start_reg] is still 1. *)
Theorem transfer_buf_keeps_send_flag_on_short_dma (address len : Z) (st : state) :
  len < avg_maxlen N_AVG -> len < buf_maxlen N_BUF ->
  let tl := len + len `mod` 2 in
  let ra := transfer_avg N_AVG switch_ch dma_avg address len st in
  let rb := transfer_buf N_BUF switch_ch dma_buf address len st in
  regs (io ra.2) !! "avg_dr_start_reg" = Some 0 ∧
  ((dma_buf (buf_buff st) (tl * 4)).2 = tl * 4 ->
     regs (io rb.2) !! "buf_dr_start_reg" = Some 0) ∧
  ((dma_buf (buf_buff st) (tl * 4)).2 ≠ tl * 4 ->
     is_transfer_error rb.1 ∧ regs (io rb.2) !! "buf_dr_start_reg" = Some 1).
Proof.
  intros Ha Hb tl ra rb. subst ra rb.
  rewrite transfer_avg_run, transfer_buf_run by done. fold tl.
  cbn [fst snd io]. split; [by mmio_lookup|].
  destruct (Z.eqb_spec (dma_buf (buf_buff st) (tl * 4)).2 (tl * 4)) as [Heq|Hne];
    cbn [fst snd io is_transfer_error].
  - split; [intros _; by mmio_lookup|done].
  - split; [done|]. intros _. split; [done|by mmio_lookup].
Qed.

End AvgBuffer_more.

Lemma config_enable_config_witness :
  let armed := (AxisAvgBuffer.config 10 0 100;; AxisAvgBuffer.enable) (AxisAvgBuffer.init 10 10) in
  regs (AxisAvgBuffer.io armed.2) !! "buf_start_reg" = Some 1 ∧
  regs (AxisAvgBuffer.io (AxisAvgBuffer.config 10 0 50 armed.2).2) !! "buf_start_reg" = Some 0.
Proof.
  intros armed.
  destruct (config_enable_config 10 0 100 0 50 (AxisAvgBuffer.init 10 10) eq_refl eq_refl)
    as (_ & _ & H1 & _ & _ & _ & _ & _ & _ & H0 & _).
  split; [exact H1 | exact H0].
Defined.

(** 25 decimated samples, a DMA that reports 96 of the 104 bytes asked: the
    transfer fails with the send flag left at 1. *)
Lemma transfer_buf_keeps_send_flag_on_short_dma_witness :
  let short : dma_engine := fun b n => (b, 96) in
  let r := AxisAvgBuffer.transfer_buf 10 3 short 0 25 (AxisAvgBuffer.init 10 10) in
  is_transfer_error r.1 ∧ regs (AxisAvgBuffer.io r.2) !! "buf_dr_start_reg" = Some 1.
Proof.
  intros short r.
  destruct (transfer_buf_keeps_send_flag_on_short_dma 10 10 3 short short 0 25
              (AxisAvgBuffer.init 10 10) eq_refl eq_refl) as (_ & _ & Hshort).
  apply Hshort. vm_compute. discriminate.
Defined.

(** ** Reading (I, Q) pairs out of buffer words *)

Lemma sint_range (bits z : Z) :
  0 < bits -> - 2 ^ (bits - 1) <= sint bits z < 2 ^ (bits - 1).
Proof.
  intros Hb. unfold sint.
  assert (Hpow : 2 ^ bits = 2 * 2 ^ (bits - 1)).
  { replace bits with (Z.succ (bits - 1)) at 1 by lia. apply Z.pow_succ_r. lia. }
  pose proof (Z.mod_pos_bound z (2 ^ bits) ltac:(lia)) as Hm.
  destruct (Z.ltb_spec (z `mod` 2 ^ bits) (2 ^ (bits - 1))); lia.
Qed.

Lemma sint_mod (bits z : Z) :
  0 < bits -> sint bits z `mod` 2 ^ bits = z `mod` 2 ^ bits.
Proof.
  intros Hb. unfold sint.
  destruct (_ <? _).
  - apply Z.mod_mod. lia.
  - replace (z `mod` 2 ^ bits - 2 ^ bits) with (z `mod` 2 ^ bits + (-1) * 2 ^ bits) by lia.
    rewrite Z_mod_plus_full. apply Z.mod_mod. lia.
Qed.

(** X17.  Splitting a buffer word into its (I, Q) pair loses nothing: both
    halves are signed values of [bits] bits, and together they give back the
    low [2 * bits] bits of the word (I in the low half, Q in the high half). *)
Theorem iq_of_word_keeps_the_word (bits w : Z) :
  0 < bits ->
  let iq := iq_of_word bits w in
  - 2 ^ (bits - 1) <= iq.1 < 2 ^ (bits - 1) ∧
  - 2 ^ (bits - 1) <= iq.2 < 2 ^ (bits - 1) ∧
  w `mod` 2 ^ (2 * bits) = iq.1 `mod` 2 ^ bits + 2 ^ bits * (iq.2 `mod` 2 ^ bits).
Proof.
  intros Hb iq. subst iq. unfold iq_of_word. cbn [fst snd].
  split_and!; try by apply sint_range.
  rewrite !sint_mod by done. rewrite Z.shiftr_div_pow2 by lia.
  replace (2 * bits) with (bits + bits) by lia. rewrite Z.pow_add_r by lia.
  apply Z.rem_mul_r; lia.
Qed.

(** The averaged word [0xFFFFFFFE_00000003] reads as I = 3, Q = -2. *)
Lemma iq_of_word_keeps_the_word_witness :
  iq_of_word 32 (-8589934589) = (3, -2) ∧
  (-8589934589) `mod` 2 ^ 64 = 3 `mod` 2 ^ 32 + 2 ^ 32 * ((-2) `mod` 2 ^ 32).
Proof.
  destruct (iq_of_word_keeps_the_word 32 (-8589934589) ltac:(lia)) as (_ & _ & H).
  split; [reflexivity | exact H].
Defined.

(** ** MrBufferEt *)

Lemma reshape2_even {A} (n : nat) (l : list A) :
  length l = (2 * n)%nat -> exists rows, reshape2 l = Some rows ∧ length rows = n.
Proof.
  revert l. induction n as [|n IH]; intros l Hl.
  - destruct l; [|done]. by exists [].
  - destruct l as [|x [|y l]]; simpl in Hl; [lia..|].
    destruct (IH l ltac:(lia)) as (rows & Hrows & Hlen).
    exists ((x, y) :: rows). simpl. rewrite Hrows. split; [done|]. simpl. lia.
Qed.

Lemma py_slice_from_length {A} (l : list A) (s : Z) :
  0 <= s ->
  Z.of_nat (length (py_slice l (Some s) None)) = Z.max 0 (Z.of_nat (length l) - s).
Proof.
  intros Hs. unfold py_slice, py_index.
  assert ((s <? 0) = false) as -> by lia.
  rewrite length_drop, length_take. lia.
Qed.

(** The rows of [reshape2] are the consecutive pairs of the flat array. *)
Lemma reshape2_lookup {A} (l : list A) (rows : list (A * A)) (i : nat) (x y : A) :
  reshape2 l = Some rows ->
  l !! (2 * i)%nat = Some x -> l !! (2 * i + 1)%nat = Some y ->
  rows !! i = Some (x, y).
Proof.
  revert l rows. induction i as [|i IH]; intros l rows Hr Hx Hy.
  - destruct l as [|a [|b l]]; simpl in *; [done..|].
    destruct (reshape2 l); simpl in Hr; [|done].
    injection Hr as <-. simpl in *. congruence.
  - destruct l as [|a [|b l]]; [done|done|].
    simpl in Hr. destruct (reshape2 l) as [rows'|] eqn:Hr'; simpl in Hr; [|done].
    injection Hr as <-.
    replace (2 * S i)%nat with (S (S (2 * i))) in Hx by lia.
    replace (2 * S i + 1)%nat with (S (S (2 * i + 1))) in Hy by lia.
    simpl in Hx, Hy. simpl. by apply (IH l rows').
Qed.

(** X18.  [MrBufferEt.transfer] returns what the DMA left in the buffer,
    from row [start] on (row 8 by default, skipping the junk): row [k] of
    the result holds the samples [2 (start + k)] and [2 (start + k) + 1] of
    the buffer after the DMA.  With a buffer of [2 * maxlen] samples that is
    [maxlen - start] pairs, none when [start] is past the end.  What the DMA
    reports is never compared with anything, the object keeps the buffer the
    DMA filled, and the send flag is back at 0 afterwards. *)
Theorem mr_transfer_skips_junk
    (N NM : Z) (dma : dma_engine) (start : option Z) (st : MrBufferEt.state) :
  (forall b n, length (dma b n).1 = length b) ->
  Z.of_nat (length (MrBufferEt.buff st)) = 2 * MrBufferEt.maxlen N NM ->
  let s := match start with None => 8 | Some s => s end in
  0 <= s ->
  let r := MrBufferEt.transfer dma start st in
  let received := (dma (MrBufferEt.buff st) 0).1 in
  exists all_rows rows,
    reshape2 received = Some all_rows ∧
    Z.of_nat (length all_rows) = MrBufferEt.maxlen N NM ∧
    rows = py_slice all_rows (Some s) None ∧
    r.1 = Ok rows ∧
    (forall (k : nat) x y,
       received !! (2 * (Z.to_nat s + k))%nat = Some x ->
       received !! (2 * (Z.to_nat s + k) + 1)%nat = Some y ->
       rows !! k = Some (x, y)) ∧
    Z.of_nat (length rows) = Z.max 0 (MrBufferEt.maxlen N NM - s) ∧
    MrBufferEt.buff r.2 = received ∧
    regs (MrBufferEt.io r.2) !! "dr_start_reg" = Some 0.
Proof.
  intros Hdma Hbuf s Hs r received. subst r received. unfold MrBufferEt.transfer.
  replace (match start with None => MrBufferEt.junk_len | Some start0 => start0 end)
    with s by (by destruct start).
  destruct (dma (MrBufferEt.buff st) 0) as [buff' reported] eqn:Hout.
  assert (Hlen : length buff' = (2 * Z.to_nat (MrBufferEt.maxlen N NM))%nat).
  { pose proof (Hdma (MrBufferEt.buff st) 0) as H. rewrite Hout in H. simpl in H. lia. }
  destruct (reshape2_even _ _ Hlen) as (rows & Hrows & Hn). rewrite Hrows.
  exists rows, (py_slice rows (Some s) None).
  cbn [fst snd MrBufferEt.io MrBufferEt.buff].
  split_and!; [done|lia|done|done| | |done|by mmio_lookup].
  - intros k x y Hx Hy.
    pose proof (reshape2_lookup _ _ _ _ _ Hrows Hx Hy) as Hrow.
    apply lookup_lt_Some in Hx.
    unfold py_slice, py_index. assert ((s <? 0) = false) as -> by lia.
    rewrite take_ge by lia. rewrite lookup_drop.
    replace (Z.to_nat (Z.min s (Z.of_nat (length rows)))) with (Z.to_nat s) by lia.
    done.
  - rewrite py_slice_from_length by done. lia.
Qed.

(** A DMA that fills a buffer of 64 zeros with ones: the 24 rows after the
    junk are rows of ones. *)
Lemma mr_transfer_skips_junk_witness :
  let dma : dma_engine := fun b n => (map (fun _ => 1) b, 0) in
  (MrBufferEt.transfer dma None (MrBufferEt.init 5 1)).1 = Ok (replicate 24 (1, 1)).
Proof.
  intros dma.
  destruct (mr_transfer_skips_junk 5 1 dma None (MrBufferEt.init 5 1)
              ltac:(intros; apply length_map) eq_refl ltac:(lia))
    as (all_rows & rows & Hall & _ & Hrows & Hret & _).
  rewrite Hret, Hrows. vm_compute in Hall. injection Hall as <-. reflexivity.
Defined.

(** ** AxisBufferDdrV1: windows at the edge of the memory, clearing *)

Lemma py_slice_inverted {A} (l : list A) (lo hi : Z) :
  0 <= hi <= lo -> py_slice l (Some lo) (Some hi) = [].
Proof.
  intros H. rewrite py_slice_nonneg by lia.
  apply drop_ge. rewrite length_take. lia.
Qed.

Lemma py_slice_nil {A} (lo hi : option Z) : py_slice (@nil A) lo hi = [].
Proof. unfold py_slice. by rewrite take_nil, drop_nil. Qed.

Lemma py_slice_Forall {A} (P : A -> Prop) (l : list A) (lo hi : option Z) :
  Forall P l -> Forall P (py_slice l lo hi).
Proof. intros H. unfold py_slice. by apply Forall_drop, Forall_take. Qed.

Section DdrBuffer_more.
Import AxisBufferDdrV1.
Variables DATA_WIDTH BURST_SIZE : Z.

(** X19.  [get_mem] never fails on a window that runs past the end of the
    memory: for [0 <= start <= end] it returns what a plain slice
    [ddr4_array[start:end]] holds, that is [min(end, maxlen) - start] pairs
    (none when [start] is past the end), fewer than the [end - start] asked
    for, and reports nothing. *)
Theorem get_mem_truncates_at_end_of_memory
    (nt : Z) (start : option Z) (st : state) (s e : Z) :
  get_mem_window DATA_WIDTH BURST_SIZE nt start = (s, e) ->
  0 <= s <= e ->
  exists data,
    get_mem DATA_WIDTH BURST_SIZE nt start st = (Return data, st) ∧
    data = iq_view 16 (py_slice (ddr4_array st) (Some s) (Some e)) ∧
    Z.of_nat (length data) = Z.max 0 (Z.min e (maxlen st) - s).
Proof.
  intros Hw Hse. rewrite (get_mem_run _ _ nt start st s e Hw).
  eexists; split; [reflexivity|]. rewrite pad_copy_trim by done.
  split; [done|]. rewrite iq_view_length, py_slice_nonneg by lia.
  rewrite length_drop, length_take. unfold maxlen. lia.
Qed.

(** X20.  A window whose end lies before its start is read as empty.  This
    is what the default start gives for too few bursts: when [nt] bursts are
    shorter than the junk at the head of the memory, [get_mem(nt)] returns
    an empty array. *)
Theorem get_mem_short_of_junk_is_empty (nt : Z) (st : state) :
  0 <= nt * burst_len DATA_WIDTH BURST_SIZE < junk_len DATA_WIDTH ->
  get_mem DATA_WIDTH BURST_SIZE nt None st = (Return [], st).
Proof.
  intros Hshort.
  rewrite (get_mem_run _ _ nt None st (junk_len DATA_WIDTH)
             (nt * burst_len DATA_WIDTH BURST_SIZE) eq_refl).
  set (s := junk_len DATA_WIDTH) in *. set (e := nt * burst_len DATA_WIDTH BURST_SIZE) in *.
  pose proof (Z.mod_pos_bound s 2 ltac:(lia)). pose proof (Z.mod_pos_bound e 2 ltac:(lia)).
  pose proof (Z.div_mod s 2 ltac:(lia)). pose proof (Z.div_mod e 2 ltac:(lia)).
  rewrite (py_slice_inverted (ddr4_array st)) by lia.
  by rewrite py_slice_nil.
Qed.

(** X21.  [junk_nt] is the least number of bursts that covers the junk:
    with a positive burst length, [junk_nt] bursts reach the junk length and
    one burst fewer does not, so [junk_nt] is the smallest [nt] for which
    the default window of [get_mem] is not inverted. *)
Theorem junk_nt_is_least_cover :
  0 < burst_len DATA_WIDTH BURST_SIZE ->
  exists n,
    junk_nt DATA_WIDTH BURST_SIZE = Return n ∧
    junk_len DATA_WIDTH <= n * burst_len DATA_WIDTH BURST_SIZE ∧
    (n - 1) * burst_len DATA_WIDTH BURST_SIZE < junk_len DATA_WIDTH.
Proof.
  intros Hbl. unfold junk_nt.
  set (b := burst_len DATA_WIDTH BURST_SIZE) in *. set (j := junk_len DATA_WIDTH).
  assert ((b =? 0) = false) as -> by lia.
  eexists; split; [reflexivity|].
  set (x := (inject_Z j / inject_Z b)%Q).
  assert (Hb : (0 < inject_Z b)%Q)
    by (change (inject_Z 0 < inject_Z b)%Q; by rewrite <- Zlt_Qlt).
  assert (Hq : (x * inject_Z b == inject_Z j)%Q) by (subst x; field; lra).
  pose proof (Qle_ceiling x) as Hhi. pose proof (Qceiling_lt x) as Hlo.
  split.
  - rewrite Zle_Qle, inject_Z_mult, <- Hq. apply Qmult_le_compat_r; [done|lra].
  - rewrite Zlt_Qlt, inject_Z_mult, <- Hq. apply Qmult_lt_compat_r; done.
Qed.

End DdrBuffer_more.

(** Two bursts of 64 words from offset 10 in a memory of 100 words: 90
    pairs come back, not 128. *)
Lemma get_mem_truncates_at_end_of_memory_witness :
  exists data,
    AxisBufferDdrV1.get_mem 32 64 2 (Some 10) (AxisBufferDdrV1.MkState mmio_init (replicate 100 7)) =
      (Return data, AxisBufferDdrV1.MkState mmio_init (replicate 100 7)) ∧
    Z.of_nat (length data) = 90.
Proof.
  destruct (get_mem_truncates_at_end_of_memory 32 64 2 (Some 10)
              (AxisBufferDdrV1.MkState mmio_init (replicate 100 7)) 10 138 eq_refl ltac:(lia))
    as (data & Hret & _ & Hlen).
  exists data. split; [exact Hret | exact Hlen].
Defined.

Lemma get_mem_short_of_junk_is_empty_witness :
  AxisBufferDdrV1.get_mem 256 1 1 None (AxisBufferDdrV1.MkState mmio_init (replicate 1000 7))
  = (Return [], AxisBufferDdrV1.MkState mmio_init (replicate 1000 7)).
Proof.
  apply (get_mem_short_of_junk_is_empty 256 1 1
           (AxisBufferDdrV1.MkState mmio_init (replicate 1000 7))).
  vm_compute. split; [discriminate|reflexivity].
Defined.

(** Bus width 256, bursts of 256 words: junk of 401 words, bursts of 2048,
    one burst covers it. *)
Lemma junk_nt_is_least_cover_witness :
  exists n, AxisBufferDdrV1.junk_nt 256 256 = Return n ∧ 401 <= n * 2048 ∧ (n - 1) * 2048 < 401.
Proof. apply (junk_nt_is_least_cover 256 256). reflexivity. Defined.

(** ** AxisBufferDdrV1: clearing the memory *)

Lemma clear_mem_run (len : option Z) (st : AxisBufferDdrV1.state) :
  AxisBufferDdrV1.clear_mem len st =
    (Return tt,
     AxisBufferDdrV1.MkState (AxisBufferDdrV1.io st)
       (replicate (length (py_slice (AxisBufferDdrV1.ddr4_array st) None len)) 0
          ++ drop (length (py_slice (AxisBufferDdrV1.ddr4_array st) None len))
               (AxisBufferDdrV1.ddr4_array st))).
Proof. reflexivity. Qed.

(** X22.  [clear_mem(length)] with [0 <= length <= maxlen] zeroes the first
    [length] words and nothing else: the words from [length] on, the size of
    the memory and the registers are as before. *)
Theorem clear_mem_zeroes_prefix (k : Z) (st : AxisBufferDdrV1.state) :
  0 <= k <= AxisBufferDdrV1.maxlen st ->
  let r := AxisBufferDdrV1.clear_mem (Some k) st in
  r.1 = Return tt ∧
  AxisBufferDdrV1.io r.2 = AxisBufferDdrV1.io st ∧
  AxisBufferDdrV1.maxlen r.2 = AxisBufferDdrV1.maxlen st ∧
  (forall i : nat, Z.of_nat i < k -> AxisBufferDdrV1.ddr4_array r.2 !! i = Some 0) ∧
  (forall i : nat, k <= Z.of_nat i ->
     AxisBufferDdrV1.ddr4_array r.2 !! i = AxisBufferDdrV1.ddr4_array st !! i).
Proof.
  intros Hk r. subst r. rewrite clear_mem_run. unfold AxisBufferDdrV1.maxlen in *.
  cbn [fst snd AxisBufferDdrV1.io AxisBufferDdrV1.ddr4_array].
  rewrite py_slice_prefix by done. rewrite length_take.
  replace (Z.to_nat k `min` length (AxisBufferDdrV1.ddr4_array st))%nat
    with (Z.to_nat k) by lia.
  split_and!; [done|done| | |].
  - rewrite length_app, length_replicate, length_drop. lia.
  - intros i Hi. rewrite lookup_app_l by (rewrite length_replicate; lia).
    apply lookup_replicate_2. lia.
  - intros i Hi. rewrite lookup_app_r by (rewrite length_replicate; lia).
    rewrite length_replicate, lookup_drop. f_equal. lia.
Qed.

Lemma clear_mem_zeroes_prefix_witness :
  let st := AxisBufferDdrV1.MkState mmio_init [11; 12; 13; 14] in
  let r := AxisBufferDdrV1.clear_mem (Some 2) st in
  AxisBufferDdrV1.ddr4_array r.2 !! 1%nat = Some 0 ∧
  AxisBufferDdrV1.ddr4_array r.2 !! 3%nat = Some 14.
Proof.
  intros st r.
  pose proof (clear_mem_zeroes_prefix 2 st ltac:(vm_compute; split; discriminate))
    as (_ & _ & _ & Hzero & Hkeep).
  split; [exact (Hzero 1%nat eq_refl) | exact (Hkeep 3%nat ltac:(discriminate))].
Defined.

(** X23.  After [clear_mem()] every read gives zeros: whatever the burst
    count and the start, [get_mem] returns only (0, 0) pairs, from a memory
    of unchanged size. *)
Theorem clear_mem_then_get_mem_reads_zeros
    (DATA_WIDTH BURST_SIZE nt : Z) (start : option Z) (st : AxisBufferDdrV1.state) :
  let st' := (AxisBufferDdrV1.clear_mem None st).2 in
  AxisBufferDdrV1.maxlen st' = AxisBufferDdrV1.maxlen st ∧
  exists data,
    AxisBufferDdrV1.get_mem DATA_WIDTH BURST_SIZE nt start st' = (Return data, st') ∧
    Forall (fun iq => iq = (0, 0)) data.
Proof.
  intros st'.
  assert (Harr : AxisBufferDdrV1.ddr4_array st'
                 = replicate (length (AxisBufferDdrV1.ddr4_array st)) 0).
  { subst st'. rewrite clear_mem_run. cbn [snd AxisBufferDdrV1.ddr4_array].
    assert (py_slice (AxisBufferDdrV1.ddr4_array st) None None
            = AxisBufferDdrV1.ddr4_array st) as ->.
    { unfold py_slice. rewrite Nat2Z.id, firstn_all. apply drop_0. }
    rewrite drop_all. apply app_nil_r. }
  split.
  - unfold AxisBufferDdrV1.maxlen. by rewrite Harr, length_replicate.
  - destruct (AxisBufferDdrV1.get_mem_window DATA_WIDTH BURST_SIZE nt start) as [s e] eqn:Hw.
    rewrite (get_mem_run _ _ nt start st' s e Hw).
    eexists; split; [reflexivity|].
    unfold iq_view. apply Forall_map. do 2 apply py_slice_Forall.
    rewrite Harr. by apply Forall_replicate.
Qed.

(** ** Input switch of the large buffers *)

Lemma wire_slaves_other (blocks : list string) (k : Z) (m : gmap string Z) (b : string) :
  b ∉ blocks -> Switch.wire_slaves k blocks m !! b = m !! b.
Proof.
  revert k m. induction blocks as [|b0 rest IH]; intros k m Hnot; [done|].
  apply not_elem_of_cons in Hnot as [Hne Hrest]. simpl.
  rewrite IH by done. by rewrite lookup_insert_ne.
Qed.

Lemma wire_slaves_nth (blocks : list string) (k : Z) (m : gmap string Z) (i : nat) (b : string) :
  NoDup blocks -> blocks !! i = Some b ->
  Switch.wire_slaves k blocks m !! b = Some (k + Z.of_nat i).
Proof.
  revert k m i. induction blocks as [|b0 rest IH]; intros k m i Hnd Hi; [done|].
  apply NoDup_cons in Hnd as [Hnot Hnd]. destruct i as [|i]; simpl in *.
  - injection Hi as ->. rewrite wire_slaves_other by done.
    rewrite lookup_insert_eq. f_equal. lia.
  - rewrite (IH (k + 1) _ i Hnd Hi). f_equal. lia.
Qed.

(** X24.  Routing as [configure_connections] wires it.  Behind a switch
    with distinct buffers on its slaves, [set_switch] of the buffer on slave
    [i] selects slave [i], and a name that is on no slave fails with the key
    error and leaves the selection alone.  Without a switch, [set_switch]
    accepts the one hard-wired buffer, changes nothing, and fails with the
    key error for every other name: the assertion cannot fail. *)
Theorem set_switch_routes_as_wired (blocks : list string) (block bufname : string) (i : nat) :
  NoDup blocks ->
  (blocks !! i = Some bufname ->
     Switch.set_switch bufname (Switch.wire_switch blocks)
     = (Ok tt, Switch.MkRouter (Some (Some (Z.of_nat i)))
                 (Switch.buf2switch (Switch.wire_switch blocks)))) ∧
  (bufname ∉ blocks ->
     Switch.set_switch bufname (Switch.wire_switch blocks)
     = (Fail (KeyErrorStr bufname), Switch.wire_switch blocks)) ∧
  Switch.set_switch block (Switch.wire_direct block) = (Ok tt, Switch.wire_direct block) ∧
  (bufname ≠ block ->
     Switch.set_switch bufname (Switch.wire_direct block)
     = (Fail (KeyErrorStr bufname), Switch.wire_direct block)).
Proof.
  intros Hnd. unfold Switch.set_switch, Switch.wire_switch, Switch.wire_direct.
  cbn [Switch.switch Switch.buf2switch]. split_and!.
  - intros Hi. by rewrite (wire_slaves_nth blocks 0 ∅ i bufname Hnd Hi).
  - intros Hnot. by rewrite wire_slaves_other, lookup_empty.
  - by rewrite lookup_insert_eq.
  - intros Hne. by rewrite lookup_insert_ne, lookup_empty.
Qed.

Lemma set_switch_routes_as_wired_witness :
  (Switch.set_switch "avg_buf_1" (Switch.wire_switch ["avg_buf_0"; "avg_buf_1"])).1 = Ok tt ∧
  Switch.switch
    (Switch.set_switch "avg_buf_1" (Switch.wire_switch ["avg_buf_0"; "avg_buf_1"])).2
  = Some (Some 1).
Proof.
  assert (Hnd : NoDup ["avg_buf_0"; "avg_buf_1"]).
  { apply NoDup_cons. split; [|apply NoDup_singleton].
    intros Hin. apply list_elem_of_singleton in Hin. discriminate Hin. }
  pose proof (set_switch_routes_as_wired ["avg_buf_0"; "avg_buf_1"] "avg_buf_0" "avg_buf_1"
                1%nat Hnd) as (Hroute & _).
  rewrite (Hroute eq_refl). split; reflexivity.
Defined.

(** ** AxisReadoutV2: what every call leaves behind *)

Lemma readout_v2_update_idle (name : string) (v : Z) (io : mmio) :
  name ≠ "we_reg" -> name ≠ "mode_reg" -> name ≠ "nsamp_reg" -> name ≠ "phase_reg" ->
  AxisReadoutV2.idle io ->
  AxisReadoutV2.idle (AxisReadoutV2.update (mmio_set name v io)).
Proof.
  intros H1 H2 H3 H4 (Hwe & Hmode & Hn & Hp). unfold AxisReadoutV2.idle, AxisReadoutV2.update.
  split_and!.
  - by mmio_lookup.
  - mmio_lookup. by rewrite mmio_set_lookup_ne.
  - mmio_lookup. by rewrite mmio_set_lookup_ne.
  - mmio_lookup. by rewrite mmio_set_lookup_ne.
Qed.

Lemma readout_v2_call_idle (soc : soc_iface) (f_dds : SpecFloat.spec_float)
    (c : AxisReadoutV2.call) (io : mmio) :
  AxisReadoutV2.idle io -> AxisReadoutV2.idle (AxisReadoutV2.run_call soc f_dds c io).
Proof.
  intros Hidle. destruct c as [sel|f_int|f gen_ch]; simpl.
  - unfold AxisReadoutV2.set_out. destruct (AxisReadoutV2.outsel_codes !! sel); [|done].
    by apply readout_v2_update_idle.
  - unfold AxisReadoutV2.set_freq_int. destruct (np_int64 f_int); [|done].
    by apply readout_v2_update_idle.
  - unfold AxisReadoutV2.set_freq. destruct (F64.is_zero f_dds); [done|].
    unfold AxisReadoutV2.set_freq_int. destruct (np_int64 _); [|done].
    by apply readout_v2_update_idle.
Qed.

(** X25.  Whatever sequence of [set_out], [set_freq_int] and [set_freq]
    calls is made on an [AxisReadoutV2] after construction, accepted or
    failed, the block is left with the write-enable register back at 0, and
    with the mode, sample-count and phase registers at their construction
    values (periodic mode, 10 samples, phase 0). *)
Theorem readout_v2_calls_leave_block_idle
    (soc : soc_iface) (f_dds : SpecFloat.spec_float) (cs : list AxisReadoutV2.call) :
  let io := AxisReadoutV2.run_calls soc f_dds cs AxisReadoutV2.init in
  regs io !! "we_reg" = Some 0 ∧
  regs io !! "mode_reg" = Some 1 ∧
  regs io !! "nsamp_reg" = Some 10 ∧
  regs io !! "phase_reg" = Some 0.
Proof.
  intros io. change (AxisReadoutV2.idle io). subst io.
  assert (Hinit : AxisReadoutV2.idle AxisReadoutV2.init) by (by vm_compute).
  revert Hinit. generalize AxisReadoutV2.init.
  induction cs as [|c cs IH]; intros io Hio; [done|].
  simpl. by apply IH, readout_v2_call_idle.
Qed.

(** ** Rounding and the mirrored Nyquist zones *)

Lemma Qabs_half_cases (y : Q) : (Qabs y == 1 # 2)%Q -> (y == 1 # 2)%Q ∨ (y == - (1 # 2))%Q.
Proof.
  intros H. destruct (Qlt_le_dec y 0) as [Hneg|Hpos].
  - right. rewrite Qabs_neg in H by lra. lra.
  - left. by rewrite Qabs_pos in H.
Qed.

Lemma np_round_tie_even (x : Q) :
  (Qabs (x - inject_Z (np_round x)) == 1 # 2)%Q -> Z.even (np_round x) = true.
Proof.
  unfold np_round.
  pose proof (Qfloor_le x) as Hlo. pose proof (Qlt_floor x) as Hhi.
  rewrite inject_Z_plus in Hhi. change (inject_Z 1) with 1%Q in Hhi.
  destruct (Qcompare_spec (x - inject_Z (Qfloor x)) (1 # 2)) as [He|Hl|Hg]; intros Htie.
  - destruct (Z.even (Qfloor x)) eqn:Ev; [done|].
    by rewrite Z.add_1_r, Z.even_succ, <- Z.negb_even, Ev.
  - apply Qabs_half_cases in Htie as [H|H]; lra.
  - rewrite inject_Z_plus in Htie. change (inject_Z 1) with 1%Q in Htie.
    apply Qabs_half_cases in Htie as [H|H]; lra.
Qed.

Lemma np_round_unique (x : Q) (n : Z) :
  (Qabs (x - inject_Z n) <= 1 # 2)%Q ->
  ((Qabs (x - inject_Z n) == 1 # 2)%Q -> Z.even n = true) ->
  np_round x = n.
Proof.
  intros Hn Heven.
  pose proof (np_round_nearest x) as Hm. pose proof (np_round_tie_even x) as Hmeven.
  set (m := np_round x) in *.
  apply Qabs_Qle_condition in Hn as [Hn1 Hn2].
  apply Qabs_Qle_condition in Hm as [Hm1 Hm2].
  assert (Hle1 : n <= m + 1).
  { rewrite Zle_Qle, inject_Z_plus. change (inject_Z 1) with 1%Q. lra. }
  assert (Hle2 : m <= n + 1).
  { rewrite Zle_Qle, inject_Z_plus. change (inject_Z 1) with 1%Q. lra. }
  destruct (Z.eq_dec m n) as [|Hne]; [done|exfalso].
  assert (Hcase : n = m + 1 ∨ m = n + 1) by lia.
  assert (Hparity : Z.even n = negb (Z.even m)).
  { destruct Hcase as [-> | ->]; rewrite Z.add_1_r, Z.even_succ, <- Z.negb_even;
      [done|by rewrite negb_involutive]. }
  assert (Hn_tie : (Qabs (x - inject_Z n) == 1 # 2)%Q).
  { destruct Hcase as [Hc|Hc]; rewrite Hc, inject_Z_plus in *;
      change (inject_Z 1) with 1%Q in *.
    - rewrite Qabs_neg by lra. lra.
    - rewrite Qabs_pos by lra. lra. }
  assert (Hm_tie : (Qabs (x - inject_Z m) == 1 # 2)%Q).
  { destruct Hcase as [Hc|Hc]; rewrite Hc, inject_Z_plus in *;
      change (inject_Z 1) with 1%Q in *.
    - rewrite Qabs_pos by lra. lra.
    - rewrite Qabs_neg by lra. lra. }
  rewrite (Heven Hn_tie), (Hmeven Hm_tie) in Hparity. done.
Qed.

Lemma np_round_opp (x : Q) : np_round (- x) = - np_round x.
Proof.
  assert (Heq : (- x - inject_Z (- np_round x) == - (x - inject_Z (np_round x)))%Q).
  { rewrite inject_Z_opp. ring. }
  apply np_round_unique.
  - rewrite Heq, Qabs_opp. apply np_round_nearest.
  - rewrite Heq, Qabs_opp, Z.even_opp. apply np_round_tie_even.
Qed.

(** Division, product and difference commute with negation, the
    difference up to the sign of a zero. *)
Lemma binary_round_aux_opp (s : bool) (m e : Z) (l : SpecFloat.location) :
  SpecFloat.binary_round_aux F64.prec F64.emax (negb s) m e l
  = SpecFloat.SFopp (SpecFloat.binary_round_aux F64.prec F64.emax s m e l).
Proof.
  unfold SpecFloat.binary_round_aux.
  destruct (SpecFloat.shr_fexp _ _ m e l) as [mrs' e'].
  destruct (SpecFloat.shr_fexp _ _ _ e' _) as [mrs'' e''].
  destruct (SpecFloat.shr_m mrs''); [done| |done].
  by destruct (e'' <=? _).
Qed.

Lemma F64_div_opp_l (x y : SpecFloat.spec_float) :
  F64.div (SpecFloat.SFopp x) y = SpecFloat.SFopp (F64.div x y).
Proof.
  destruct x as [sx|sx| |sx mx ex], y as [sy|sy| |sy my ey]; try done;
    try (by destruct sx, sy).
  change (SpecFloat.SFopp (SpecFloat.S754_finite sx mx ex))
    with (SpecFloat.S754_finite (negb sx) mx ex).
  unfold F64.div, SpecFloat.SFdiv.
  destruct (SpecFloat.SFdiv_core_binary _ _ _ _ _ _) as [[mz ez] lz].
  rewrite <- binary_round_aux_opp. by destruct sx, sy.
Qed.

Lemma F64_mul_opp_l (x y : SpecFloat.spec_float) :
  F64.mul (SpecFloat.SFopp x) y = SpecFloat.SFopp (F64.mul x y).
Proof.
  destruct x as [sx|sx| |sx mx ex], y as [sy|sy| |sy my ey]; try done;
    try (by destruct sx, sy).
  change (SpecFloat.SFopp (SpecFloat.S754_finite sx mx ex))
    with (SpecFloat.S754_finite (negb sx) mx ex).
  unfold F64.mul, SpecFloat.SFmul.
  rewrite <- binary_round_aux_opp. by destruct sx, sy.
Qed.

Lemma to_Q_opp (x : SpecFloat.spec_float) :
  (F64.to_Q (SpecFloat.SFopp x) == - F64.to_Q x)%Q.
Proof.
  destruct x as [sx|sx| |sx mx ex]; try done.
  unfold F64.to_Q, SpecFloat.SFopp. generalize (2 ^ ex)%Q. intros q.
  destruct q as [qn qd], sx; unfold Qeq; simpl; lia.
Qed.

Lemma binary_normalize_opp (m e : Z) :
  m ≠ 0 ->
  SpecFloat.binary_normalize F64.prec F64.emax (- m) e false
  = SpecFloat.SFopp (SpecFloat.binary_normalize F64.prec F64.emax m e false).
Proof.
  intros Hm. destruct m as [|p|p]; [done| |]; simpl;
    unfold SpecFloat.binary_round;
    destruct (SpecFloat.shl_align _ _ _) as [mz ez].
  - apply (binary_round_aux_opp false).
  - apply (binary_round_aux_opp true).
Qed.

Lemma of_Z_opp (n : Z) : n ≠ 0 -> F64.of_Z (- n) = SpecFloat.SFopp (F64.of_Z n).
Proof. apply binary_normalize_opp. Qed.

Lemma F64_sub_opp (a b : SpecFloat.spec_float) :
  same_float (F64.sub (SpecFloat.SFopp a) (SpecFloat.SFopp b))
             (SpecFloat.SFopp (F64.sub a b)).
Proof.
  destruct a as [sa|sa| |sa ma ea], b as [sb|sb| |sb mb eb];
    try (by left); try (by destruct sa, sb; (by left) || (by right)).
  change (SpecFloat.SFopp (SpecFloat.S754_finite sa ma ea))
      with (SpecFloat.S754_finite (negb sa) ma ea).
  change (SpecFloat.SFopp (SpecFloat.S754_finite sb mb eb))
    with (SpecFloat.S754_finite (negb sb) mb eb).
  unfold F64.sub, SpecFloat.SFsub.
  set (A := Z.pos (SpecFloat.shl_align ma ea (Z.min ea eb)).1).
  set (B := Z.pos (SpecFloat.shl_align mb eb (Z.min ea eb)).1).
  set (d := SpecFloat.cond_Zopp sa A - SpecFloat.cond_Zopp sb B).
  replace (SpecFloat.cond_Zopp (negb sa) A - SpecFloat.cond_Zopp (negb sb) B)
    with (- d) by (subst d; destruct sa, sb; simpl; lia).
  destruct (Z.eq_dec d 0) as [->|Hd]; [by right|].
  left. by apply binary_normalize_opp.
Qed.

(** The same with a zero or a NaN taken away, as when no step is made. *)
Lemma F64_sub_opp_zero (a z : SpecFloat.spec_float) :
  F64.is_zero z = true ∨ z = SpecFloat.S754_nan ->
  same_float (F64.sub (SpecFloat.SFopp a) z) (SpecFloat.SFopp (F64.sub a z)).
Proof.
  intros [Hz | ->].
  - destruct z as [sz|sz| |sz mz ez]; try done.
    destruct a as [sa|sa| |sa ma ea]; try (by left).
    destruct sa, sz; (by left) || (by right).
  - left. by destruct a.
Qed.

(** A product with the float zero is a zero or a NaN. *)
Lemma F64_mul_zero (h : SpecFloat.spec_float) :
  F64.is_zero (F64.mul (F64.of_Z 0) h) = true ∨ F64.mul (F64.of_Z 0) h = SpecFloat.S754_nan.
Proof. destruct h; (by left) || (by right). Qed.

Lemma steps_f64_opp (f_dds ro_freq : SpecFloat.spec_float) (steps : Z)
    (residual : SpecFloat.spec_float) :
  steps_f64 f_dds ro_freq = Return (steps, residual) ->
  exists residual',
    steps_f64 f_dds (SpecFloat.SFopp ro_freq) = Return (- steps, residual') ∧
    same_float residual' (SpecFloat.SFopp residual).
Proof.
  unfold steps_f64. set (h := F64.div f_dds (F64.of_Z 2)).
  destruct (F64.is_zero h); [done|].
  rewrite F64_div_opp_l. set (q := F64.div ro_freq h).
  assert (Hr : forall x, F64.is_finite x = true ->
            np_round (F64.to_Q (SpecFloat.SFopp x)) = - np_round (F64.to_Q x)).
  { intros x _. rewrite <- np_round_opp. apply np_round_comp, to_Q_opp. }
  destruct q as [sq|sq| |sq mq eq_] eqn:Hq; cbn [int_np_round SpecFloat.SFopp]; try done.
  - intros [= <- <-]. eexists. split; [reflexivity|].
    change (np_round (F64.to_Q (SpecFloat.S754_zero (negb sq)))) with 0.
    change (np_round (F64.to_Q (SpecFloat.S754_zero sq))) with 0.
    apply F64_sub_opp_zero, F64_mul_zero.
  - intros [= <- <-]. eexists.
    change (SpecFloat.S754_finite (negb sq) mq eq_)
      with (SpecFloat.SFopp (SpecFloat.S754_finite sq mq eq_)).
    rewrite (Hr (SpecFloat.S754_finite sq mq eq_) eq_refl).
    split; [reflexivity|].
    set (n := np_round _).
    destruct (Z.eq_dec n 0) as [->|Hn].
    + apply F64_sub_opp_zero, F64_mul_zero.
    + rewrite (of_Z_opp n Hn), F64_mul_opp_l. apply F64_sub_opp.
Qed.

(** X26.  A frequency in an even Nyquist zone is served by the mirrored
    channel: folding negates the channel step and the residual, so the
    mixing channel is [(CH_OFFSET - f_steps) mod N] for the step count
    [f_steps] of the unfolded frequency.  The same holds on the floats of
    [set_freq]: in an even zone the fold is the negated float, its step count
    is the negated step count and its residual the negated residual (or both
    are zeros).  With [fs = f_dds = 100]: 60 takes 1 step with residual 10,
    its fold -60 takes -1 step with residual -10, and the request is sent to
    channel 3. *)
Theorem even_zone_selects_mirrored_channel (fs f_dds ro_freq : Q) (CH_OFFSET N : Z) :
  ¬ (f_dds == 0)%Q ->
  Z.even (nqz fs ro_freq) = true ->
  let folded := fold_nqz fs ro_freq in
  f_steps f_dds folded = - f_steps f_dds ro_freq ∧
  pfb_channel CH_OFFSET N (f_steps f_dds folded)
    = (CH_OFFSET - f_steps f_dds ro_freq) `mod` N ∧
  (f_dds_residual f_dds folded == - f_dds_residual f_dds ro_freq)%Q ∧
  (forall fs64 f_dds64 ro64 n steps residual,
     SpecFloat.valid_binary F64.prec F64.emax ro64 = true ->
     nqz_f64 fs64 ro64 = Return n -> Z.even n = true ->
     steps_f64 f_dds64 ro64 = Return (steps, residual) ->
     exists residual',
       fold_f64 fs64 ro64 = Return (SpecFloat.SFopp ro64) ∧
       steps_f64 f_dds64 (SpecFloat.SFopp ro64) = Return (- steps, residual') ∧
       same_float residual' (SpecFloat.SFopp residual) ∧
       pfb_channel CH_OFFSET N (- steps) = (CH_OFFSET - steps) `mod` N) ∧
  (steps_f64 (F64.of_Z 100) (F64.of_Z 60) = Return (1, F64.of_Z 10) ∧
   fold_f64 (F64.of_Z 100) (F64.of_Z 60) = Return (F64.of_Z (-60)) ∧
   steps_f64 (F64.of_Z 100) (F64.of_Z (-60)) = Return (-1, F64.of_Z (-10)) ∧
   exists r,
     PFBWide.set_freq 8 4 soc_plain (F64.of_Z 100) (F64.of_Z 100) (F64.of_Z 60) 0 None
       PFBWide.initialize = (Return tt, r) ∧
     regs (PFBWide.io r) !! "id0_reg" = Some (PFBWide.id_val 3)).
Proof.
  intros Hnz Heven folded.
  pose proof (fold_nqz_even fs ro_freq Heven) as Hfold. fold folded in Hfold.
  assert (Hsteps : f_steps f_dds folded = - f_steps f_dds ro_freq).
  { unfold f_steps. rewrite <- np_round_opp. apply np_round_comp.
    rewrite Hfold. field. lra. }
  split_and!; [done| | | |by vm_compute..|].
  - rewrite Hsteps. unfold pfb_channel. f_equal; lia.
  - unfold f_dds_residual. rewrite Hsteps, Hfold, inject_Z_opp. ring.
  - intros fs64 f_dds64 ro64 n steps residual Hv Hn Hev Hst.
    destruct (steps_f64_opp _ _ _ _ Hst) as (residual' & Hst' & Hsame).
    exists residual'. rewrite (fold_f64_run _ _ _ Hv Hn), Hev.
    split_and!; [done..|]. unfold pfb_channel. f_equal; lia.
  - unfold PFBWide.set_freq, bind, lift.
    change (ro_freq_of soc_plain (F64.of_Z 60) None) with (F64.of_Z 60).
    assert (fold_f64 (F64.of_Z 100) (F64.of_Z 60) = Return (F64.of_Z (-60))) as ->
      by (by vm_compute).
    assert (steps_f64 (F64.of_Z 100) (F64.of_Z (-60)) = Return (-1, F64.of_Z (-10))) as ->
      by (by vm_compute).
    eexists. split; [reflexivity|]. done.
Qed.

(** 60 MHz at a sample rate of 100: zone 2, one step below the centre,
    channel 3 of 8. *)
Lemma even_zone_selects_mirrored_channel_witness :
  pfb_channel 4 8 (f_steps 100 (fold_nqz 100 60)) = 3.
Proof.
  destruct (even_zone_selects_mirrored_channel 100 100 60 4 8
              ltac:(vm_compute; discriminate) eq_refl) as (_ & H & _).
  rewrite H. reflexivity.
Defined.
